(** * TM1py DimensionService: a shallow embedding and its properties

    The module [TM1py/Services/DimensionService.py] is a client facade: every
    method assembles a request, hands it to a collaborator (the REST
    transport, the hierarchy service, the process service) and post-processes
    the JSON answer.  The embedding below keeps that shape:

    - JSON answers are values of the inductive type [json], read with the
      Python subscription and iteration rules ([KeyError], [IndexError],
      [TypeError]);
    - the collaborators are an interface ([Collaborators]) over an abstract
      server state, each call returning the next state and either a value or
      a raised exception;
    - the methods are written in a state-and-exception monad that also
      records every collaborator call, with its outcome, in a trace. *)

From Stdlib Require Import Ascii.
From stdpp Require Import base option list sets gmap strings pretty.

Local Open Scope string_scope.
#[local] Set Warnings "-register-all".

(** ** JSON values and Python exceptions *)

(** The result of [response.json()].  Numbers are restricted to integers;
    an object is the list of its members in insertion order. *)
Inductive json : Type :=
| JNull
| JBool (b : bool)
| JNum (n : Z)
| JStr (s : string)
| JArr (items : list json)
| JObj (members : list (string * json)).

(** The exceptions that can travel through the methods of the service.
    [TM1pyException] is the transport's own class; the others are Python
    builtins, [ConnectionError] standing for an error of the HTTP library
    that the transport does not wrap. *)
Inductive exn : Type :=
| TM1pyException (response : string)
| Exception_ (message : string)
| KeyError (key : json)
| IndexError
| TypeError
| ValueError
| ConnectionError.

(** A Python expression either returns a value or raises. *)
Inductive outcome (A : Type) : Type :=
| Raised (e : exn)
| Returned (a : A).
Arguments Raised {A} e.
Arguments Returned {A} a.

Definition is_TM1pyException (e : exn) : bool :=
  match e with TM1pyException _ => true | _ => false end.

Definition raised {A} (o : outcome A) : bool :=
  match o with Raised _ => true | Returned _ => false end.

(** Sequencing of pure-but-failing expressions (subscription chains). *)
Definition obind {A B} (o : outcome A) (k : A -> outcome B) : outcome B :=
  match o with
  | Raised e => Raised e
  | Returned a => k a
  end.

(** [[f(x) for x in l]]: elements are evaluated left to right and the first
    exception aborts the comprehension. *)
Fixpoint comprehension {A B} (f : A -> outcome B) (l : list A) : outcome (list B) :=
  match l with
  | [] => Returned []
  | x :: rest =>
      obind (f x) (fun y =>
      obind (comprehension f rest) (fun ys => Returned (y :: ys)))
  end.

Fixpoint lookup_member (k : string) (members : list (string * json)) : option json :=
  match members with
  | [] => None
  | (k', v) :: rest => if String.eqb k k' then Some v else lookup_member k rest
  end.

(** [v[k]] for a string key [k]. *)
Definition getitem (k : string) (v : json) : outcome json :=
  match v with
  | JObj members =>
      match lookup_member k members with
      | Some x => Returned x
      | None => Raised (KeyError (JStr k))
      end
  | _ => Raised TypeError
  end.

(** [v[0]]. *)
Definition getitem0 (v : json) : outcome json :=
  match v with
  | JArr (x :: _) => Returned x
  | JArr [] => Raised IndexError
  | JStr (String c _) => Returned (JStr (String c EmptyString))
  | JStr EmptyString => Raised IndexError
  | JObj _ => Raised (KeyError (JNum 0))
  | _ => Raised TypeError
  end.

(** [for x in v]: a list yields its items, a dict its keys, a string its
    characters; the other JSON values are not iterable. *)
Definition iterate (v : json) : outcome (list json) :=
  match v with
  | JArr items => Returned items
  | JObj members => Returned (map (fun kv => JStr (fst kv)) members)
  | JStr s => Returned (map (fun c => JStr (String c EmptyString)) (String.list_ascii_of_string s))
  | _ => Raised TypeError
  end.

(** ** Strings *)

(** [s[0]] on a Python string. *)
Definition first_char (s : string) : outcome string :=
  match s with
  | EmptyString => Raised IndexError
  | String c _ => Returned (String c EmptyString)
  end.

Definition dquote : ascii := Eval cbv in ascii_of_nat 34.
Definition backslash : ascii := Eval cbv in ascii_of_nat 92.

Definition hex_digit (n : nat) : ascii :=
  if Nat.ltb n 10 then ascii_of_nat (48 + n) else ascii_of_nat (87 + n).

(** [json.encoder.ESCAPE_DCT]: the replacement of one character inside a JSON
    string literal when [ensure_ascii] is false. *)
Definition escape_char (c : ascii) : string :=
  let n := nat_of_ascii c in
  if Nat.eqb n 34 then String backslash (String dquote EmptyString)
  else if Nat.eqb n 92 then String backslash (String backslash EmptyString)
  else if Nat.eqb n 10 then String backslash "n"
  else if Nat.eqb n 13 then String backslash "r"
  else if Nat.eqb n 9 then String backslash "t"
  else if Nat.eqb n 8 then String backslash "b"
  else if Nat.eqb n 12 then String backslash "f"
  else if Nat.ltb n 32 then
    String backslash ("u00" +:+ String (hex_digit (n / 16)) (String (hex_digit (n mod 16)) EmptyString))
  else String c EmptyString.

Fixpoint escape_chars (s : string) : string :=
  match s with
  | EmptyString => EmptyString
  | String c rest => escape_char c +:+ escape_chars rest
  end.

Definition encode_basestring (s : string) : string :=
  String dquote (escape_chars s +:+ String dquote EmptyString).

(** [json.dumps(v, ensure_ascii=False)] with the default separators. *)
Fixpoint json_dumps (v : json) : string :=
  match v with
  | JNull => "null"
  | JBool true => "true"
  | JBool false => "false"
  | JNum n => pretty n
  | JStr s => encode_basestring s
  | JArr items =>
      "[" +:+
      (fix items_dumps (l : list json) : string :=
         match l with
         | [] => EmptyString
         | x :: rest =>
             json_dumps x +:+
             match rest with [] => EmptyString | _ => ", " +:+ items_dumps rest end
         end) items +:+ "]"
  | JObj members =>
      "{" +:+
      (fix members_dumps (l : list (string * json)) : string :=
         match l with
         | [] => EmptyString
         | (k, x) :: rest =>
             encode_basestring k +:+ ": " +:+ json_dumps x +:+
             match rest with [] => EmptyString | _ => ", " +:+ members_dumps rest end
         end) members +:+ "}"
  end.

(** ** Case- and space-insensitive comparison *)

Definition lower_char (c : ascii) : ascii :=
  let n := nat_of_ascii c in
  if Nat.leb 65 n && Nat.leb n 90 then ascii_of_nat (n + 32) else c.

Definition is_space (c : ascii) : bool := Nat.eqb (nat_of_ascii c) 32.

(** Modelled from the spec: [TM1py.Utils.Utils], which defines
    [case_and_space_insensitive_equals], is not among the sources.  The spec
    describes the comparison as a normalization (spaces removed, letters
    lowercased) applied to both sides before equality.  Lowercasing is
    modelled on the ASCII letters. *)
Fixpoint normalize (s : string) : string :=
  match s with
  | EmptyString => EmptyString
  | String c rest =>
      if is_space c then normalize rest else String (lower_char c) (normalize rest)
  end.

Definition case_and_space_insensitive_equals (s1 s2 : string) : bool :=
  String.eqb (normalize s1) (normalize s2).

(** ** Data model *)

Module ElementAttribute.
Record t : Type := Build { name : string; attribute_type : string }.
End ElementAttribute.

Module Hierarchy.
Record t : Type := Build {
  name : string;
  dimension_name : string;
  element_attributes : list ElementAttribute.t
}.
End Hierarchy.

(** Modelled from the spec: the classes of [TM1py.Objects] are not among the
    sources.  A dimension is a name and an ordered collection of
    hierarchies, a hierarchy a name, the name of its dimension and a
    collection of element attributes, an element attribute a name and a
    type tag.  [body] is the value of the [body] property, the JSON text of
    the dimension; iterating a dimension iterates [hierarchies], and
    [hierarchy_names] lists their names in that order. *)
Module Dimension.
Record t : Type := Build {
  name : string;
  hierarchies : list Hierarchy.t;
  body : string
}.

Definition hierarchy_names (d : t) : list string :=
  map Hierarchy.name (hierarchies d).
End Dimension.

(** An HTTP response, as far as the service reads it: [json_body] is [None]
    when the body is not valid JSON. *)
Record Response : Type := { json_body : option json }.

(** [response.json()]. *)
Definition response_json (r : Response) : outcome json :=
  match json_body r with
  | Some v => Returned v
  | None => Raised ValueError
  end.

(** ** Collaborators *)

(** The objects the service talks to, over a server state [W]:
    the REST transport ([_rest.POST], [_rest.GET], [_rest.DELETE]), the
    existence probe inherited from [ObjectService] ([_exists]), the
    [HierarchyService] and the [ProcessService].  The values returned by the
    hierarchy and process calls are discarded by the service and are
    modelled as [unit]. *)
Class Collaborators (W : Type) : Type := {
  rest_POST : string -> string -> W -> W * outcome Response;
  rest_GET : string -> string -> W -> W * outcome Response;
  rest_DELETE : string -> W -> W * outcome Response;
  object_exists : string -> W -> W * outcome bool;
  hierarchies_get_all_names : string -> W -> W * outcome (list string);
  hierarchies_exists : string -> string -> W -> W * outcome bool;
  hierarchies_update : Hierarchy.t -> W -> W * outcome unit;
  hierarchies_create : Hierarchy.t -> W -> W * outcome unit;
  hierarchies_delete : string -> string -> W -> W * outcome unit;
  execute_ti_code : list string -> W -> W * outcome unit
}.

(** One collaborator call together with what came back. *)
Inductive event : Type :=
| RestPOST (request data : string) (out : outcome Response)
| RestGET (request data : string) (out : outcome Response)
| RestDELETE (request : string) (out : outcome Response)
| ObjectExists (request : string) (out : outcome bool)
| HierGetAllNames (dimension_name : string) (out : outcome (list string))
| HierExists (dimension_name hierarchy_name : string) (out : outcome bool)
| HierUpdate (hierarchy : Hierarchy.t) (out : outcome unit)
| HierCreate (hierarchy : Hierarchy.t) (out : outcome unit)
| HierDelete (dimension_name hierarchy_name : string) (out : outcome unit)
| ExecuteTiCode (lines_prolog : list string) (out : outcome unit).

(** Calls that change the server: everything but the probes and the GET. *)
Definition is_mutation (ev : event) : bool :=
  match ev with
  | RestPOST _ _ _ | RestDELETE _ _
  | HierUpdate _ _ | HierCreate _ _ | HierDelete _ _ _
  | ExecuteTiCode _ _ => true
  | RestGET _ _ _ | ObjectExists _ _ | HierGetAllNames _ _ | HierExists _ _ _ => false
  end.

Definition is_hier_delete (ev : event) : bool :=
  match ev with HierDelete _ _ _ => true | _ => false end.

Definition is_hier_upsert (ev : event) : bool :=
  match ev with HierUpdate _ _ | HierCreate _ _ => true | _ => false end.

(** ** The monad of the service methods *)

Record state (W : Type) : Type := State { world : W; trace : list event }.
Arguments State {W} world trace.
Arguments world {W} s.
Arguments trace {W} s.

Definition M (W A : Type) : Type := state W -> state W * outcome A.

Section Monad.
Context {W : Type}.

Definition ret {A} (a : A) : M W A := fun s => (s, Returned a).

Definition raise {A} (e : exn) : M W A := fun s => (s, Raised e).

Definition bind {A B} (m : M W A) (k : A -> M W B) : M W B :=
  fun s =>
    match m s with
    | (s', Returned a) => k a s'
    | (s', Raised e) => (s', Raised e)
    end.

(** A pure expression that may raise. *)
Definition lift {A} (o : outcome A) : M W A := fun s => (s, o).

(** A collaborator call: run it on the server state and log it. *)
Definition call {A} (op : W -> W * outcome A) (log : outcome A -> event) : M W A :=
  fun s =>
    let (w', out) := op (world s) in
    (State w' (trace s ++ [log out]), out).

(** [try: body  except TM1pyException as e: handler(e)]. *)
Definition try_except_TM1pyException {A} (body : M W A) (handler : exn -> M W A) : M W A :=
  fun s =>
    match body s with
    | (s', Raised e) => if is_TM1pyException e then handler e s' else (s', Raised e)
    | (s', Returned a) => (s', Returned a)
    end.
End Monad.

Notation "x <- m ;; k" := (bind m (fun x => k))
  (at level 100, m at next level, right associativity).
Notation "m ;;; k" := (bind m (fun _ => k))
  (at level 100, right associativity).

(** [for x in l: f(x)]. *)
Fixpoint for_each {W A} (l : list A) (f : A -> M W unit) : M W unit :=
  match l with
  | [] => ret tt
  | x :: rest => f x ;;; for_each rest f
  end.

(** [if c: m] with no else branch. *)
Definition when {W} (c : bool) (m : M W unit) : M W unit :=
  if c then m else ret tt.

(** ** The service *)

Module DimensionService.
Section Service.
Context {W : Type} `{!Collaborators W}.

(** [exists(dimension_name)] *)
Definition exists_ (dimension_name : string) : M W bool :=
  let request := "/api/v1/Dimensions('" +:+ dimension_name +:+ "')" in
  call (object_exists request) (ObjectExists request).

(** [delete(dimension_name)] *)
Definition delete (dimension_name : string) : M W Response :=
  let request := "/api/v1/Dimensions('" +:+ dimension_name +:+ "')" in
  call (rest_DELETE request) (RestDELETE request).

(** The body of the [try] block of [create]. *)
Definition create_steps (dimension : Dimension.t) : M W Response :=
  let request := "/api/v1/Dimensions" in
  response <- call (rest_POST request (Dimension.body dimension))
                   (RestPOST request (Dimension.body dimension)) ;;
  for_each (Dimension.hierarchies dimension) (fun hierarchy =>
    when (Nat.ltb 0 (length (Hierarchy.element_attributes hierarchy)))
      (call (hierarchies_update hierarchy) (HierUpdate hierarchy))) ;;;
  ret response.

(** The [except TM1pyException as e] block of [create]. *)
Definition create_undo (dimension : Dimension.t) (e : exn) : M W Response :=
  still_there <- exists_ (Dimension.name dimension) ;;
  when still_there (delete (Dimension.name dimension) ;;; ret tt) ;;;
  raise e.

(** [create(dimension)] *)
Definition create (dimension : Dimension.t) : M W Response :=
  already <- exists_ (Dimension.name dimension) ;;
  (if already then raise (Exception_ "Dimension already exists")
   else try_except_TM1pyException (create_steps dimension) (create_undo dimension)).

(** [set(server_names) - set(dimension.hierarchy_names)]: the builtin set
    of strings, compared by string equality. *)
Definition hierarchies_to_be_removed (server_names : list string)
    (dimension : Dimension.t) : gset string :=
  list_to_set server_names ∖ list_to_set (Dimension.hierarchy_names dimension).

(** One round of the second loop of [update]. *)
Definition upsert (hierarchy : Hierarchy.t) : M W unit :=
  when (negb (case_and_space_insensitive_equals (Hierarchy.name hierarchy) "Leaves"))
    (there <- call (hierarchies_exists (Hierarchy.dimension_name hierarchy)
                                       (Hierarchy.name hierarchy))
                   (HierExists (Hierarchy.dimension_name hierarchy)
                               (Hierarchy.name hierarchy)) ;;
     (if there then call (hierarchies_update hierarchy) (HierUpdate hierarchy)
      else call (hierarchies_create hierarchy) (HierCreate hierarchy))).

(** [update(dimension)].  The iteration order of a Python set is not
    specified; the model iterates in the order of [elements]. *)
Definition update (dimension : Dimension.t) : M W unit :=
  server_names <- call (hierarchies_get_all_names (Dimension.name dimension))
                       (HierGetAllNames (Dimension.name dimension)) ;;
  for_each (elements (hierarchies_to_be_removed server_names dimension))
    (fun hierarchy_name =>
       call (hierarchies_delete (Dimension.name dimension) hierarchy_name)
            (HierDelete (Dimension.name dimension) hierarchy_name)) ;;;
  for_each (Dimension.hierarchies dimension) upsert.

(** [get_all_names()] *)
Definition get_all_names : M W (list json) :=
  let request := "/api/v1/Dimensions?$select=Name" in
  response <- call (rest_GET request "") (RestGET request "") ;;
  lift (obind (response_json response) (fun answer =>
        obind (getitem "value" answer) (fun value =>
        obind (iterate value) (fun entries =>
        comprehension (getitem "Name") entries)))).

(** [mdx_skeleton.format(mdx, dimension_name, dimension_name)], the doubled
    braces of the skeleton standing for single ones. *)
Definition mdx_skeleton_format (a b c : string) : string :=
  "SELECT " +:+ a +:+ " ON ROWS, " +:+
  "{ [}ElementAttributes_" +:+ b +:+ "].DefaultMember } ON COLUMNS  " +:+
  "FROM [}ElementAttributes_" +:+ c +:+ "]".

Definition execute_mdx_request : string :=
  "/api/v1/ExecuteMDX?$expand=Axes(" +:+
  "$filter=Ordinal eq 1;" +:+
  "$expand=Tuples($expand=Members($select=Ordinal;$expand=Element($select=Name))))".

(** [row_tuple['Members'][0]['Element']['Name']] *)
Definition first_member_name (row_tuple : json) : outcome json :=
  obind (getitem "Members" row_tuple) (fun members =>
  obind (getitem0 members) (fun member =>
  obind (getitem "Element" member) (fun element =>
  getitem "Name" element))).

(** The list comprehension that closes [execute_mdx]. *)
Definition axis_element_names (raw_dict : json) : outcome (list json) :=
  obind (getitem "Axes" raw_dict) (fun axes =>
  obind (getitem0 axes) (fun axis =>
  obind (getitem "Tuples" axis) (fun tuples =>
  obind (iterate tuples) (fun rows =>
  comprehension first_member_name rows)))).

(** [execute_mdx(dimension_name, mdx)] *)
Definition execute_mdx (dimension_name mdx : string) : M W (list json) :=
  let mdx_full := mdx_skeleton_format mdx dimension_name dimension_name in
  let request := execute_mdx_request in
  let payload := JObj [("MDX", JStr mdx_full)] in
  response <- call (rest_POST request (json_dumps payload))
                   (RestPOST request (json_dumps payload)) ;;
  lift (obind (response_json response) axis_element_names).

(** ["AttrInsert('{}', '', '{}', '{}');".format(dimension.name, ea.name,
    ea.attribute_type[0])] *)
Definition attr_insert (dimension : Dimension.t) (ea : ElementAttribute.t)
    : outcome string :=
  obind (first_char (ElementAttribute.attribute_type ea)) (fun tag =>
  Returned ("AttrInsert('" +:+ Dimension.name dimension +:+ "', '', '" +:+
            ElementAttribute.name ea +:+ "', '" +:+ tag +:+ "');")).

(** [create_element_attributes_through_ti(dimension)] *)
Definition create_element_attributes_through_ti (dimension : Dimension.t) : M W unit :=
  for_each (Dimension.hierarchies dimension) (fun h =>
    statements <- lift (comprehension (attr_insert dimension)
                                      (Hierarchy.element_attributes h)) ;;
    call (execute_ti_code statements) (ExecuteTiCode statements)).
End Service.
End DimensionService.

(** ** What the specification says, where it is compared with the code *)

(** The query template as the specification prints it, with the row
    expression and the dimension name substituted. *)
Definition spec_mdx_template (mdx dim : string) : string :=
  "SELECT " +:+ mdx +:+ " ON ROWS, {}ElementAttributes_" +:+ dim +:+
  "].DefaultMember} ON COLUMNS FROM []ElementAttributes_" +:+ dim +:+ "]".

(** The names to delete as the specification describes them: the names on
    the server that no hierarchy name of the dimension matches under the
    case- and space-insensitive comparison. *)
Definition spec_hierarchies_to_be_removed (server_names : list string)
    (dimension : Dimension.t) : list string :=
  List.filter
    (fun n => negb (existsb (case_and_space_insensitive_equals n)
                            (Dimension.hierarchy_names dimension)))
    server_names.

(** ** Reading a trace *)

Definition run {W A} (m : M W A) (w : W) : state W * outcome A := m (State w []).

(** A method that only appends to the trace, every new event in [P]. *)
Definition emits {W A} (P : event -> Prop) (m : M W A) : Prop :=
  forall s, exists t, trace (fst (m s)) = (trace s ++ t)%list /\ Forall P t.

Definition is_rest_delete (ev : event) : bool :=
  match ev with RestDELETE _ _ => true | _ => false end.

(** The events of the [try] block of [create]. *)
Definition is_create_step (ev : event) : bool :=
  match ev with RestPOST _ _ _ | HierUpdate _ _ => true | _ => false end.

(** The events of the second loop of [update]: probes, and updates and
    creations of hierarchies that are not named Leaves. *)
Definition upsert_event (ev : event) : Prop :=
  match ev with
  | HierExists _ _ _ => True
  | HierUpdate h _ | HierCreate h _ =>
      case_and_space_insensitive_equals (Hierarchy.name h) "Leaves" = false
  | _ => False
  end.

(** The (dimension, hierarchy) pairs of the hierarchy deletions of a trace. *)
Definition deleted_hierarchies (t : list event) : list (string * string) :=
  omap (fun ev => match ev with
                  | HierDelete d h _ => Some (d, h)
                  | _ => None
                  end) t.

(** The statement list of every script execution of a trace. *)
Definition ti_batches (t : list event) : list (list string) :=
  omap (fun ev => match ev with
                  | ExecuteTiCode lines _ => Some lines
                  | _ => None
                  end) t.

(** The shape of the second loop of [update] when every call returns: the
    hierarchies are visited in order, one named Leaves is passed over, any
    other is probed and then updated or created according to the answer. *)
Inductive upserts : list Hierarchy.t -> list event -> Prop :=
| upserts_nil : upserts [] []
| upserts_leaves h hs t :
    case_and_space_insensitive_equals (Hierarchy.name h) "Leaves" = true ->
    upserts hs t ->
    upserts (h :: hs) t
| upserts_update h hs t :
    case_and_space_insensitive_equals (Hierarchy.name h) "Leaves" = false ->
    upserts hs t ->
    upserts (h :: hs)
      (HierExists (Hierarchy.dimension_name h) (Hierarchy.name h) (Returned true)
       :: HierUpdate h (Returned tt) :: t)
| upserts_create h hs t :
    case_and_space_insensitive_equals (Hierarchy.name h) "Leaves" = false ->
    upserts hs t ->
    upserts (h :: hs)
      (HierExists (Hierarchy.dimension_name h) (Hierarchy.name h) (Returned false)
       :: HierCreate h (Returned tt) :: t).

(** A row of an MDX answer whose first member carries the element name
    [name]; whatever follows the first member is left open. *)
Definition row_with_name (row name : json) : Prop :=
  exists member others element,
    getitem "Members" row = Returned (JArr (member :: others)) /\
    getitem "Element" member = Returned element /\
    getitem "Name" element = Returned name.

(** The first character of a string, empty for the empty string. *)
Definition head_char (s : string) : string :=
  match s with
  | EmptyString => EmptyString
  | String c _ => String c EmptyString
  end.

(** ** Assumptions on a server *)

Section Laws.
Context {W : Type} `{!Collaborators W}.

(** A DELETE that returns leaves nothing behind for the probe. *)
Definition delete_removes : Prop :=
  forall request w w' r,
    rest_DELETE request w = (w', Returned r) ->
    snd (object_exists request w') = Returned false.

(** Asking the probe again gives the same answer. *)
Definition probe_repeatable : Prop :=
  forall request w w' b,
    object_exists request w = (w', Returned b) ->
    snd (object_exists request w') = Returned b.

(** The script execution never raises. *)
Definition ti_never_raises : Prop :=
  forall lines w, snd (execute_ti_code lines w) = Returned tt.
End Laws.

(** ** A server for examples *)

(** A small in-memory server: the names of its dimensions, the
    (dimension, hierarchy) pairs of its hierarchies, the canned answer of
    the MDX endpoint, and injected faults for hierarchy updates (by
    hierarchy name) and for DELETE. *)
Module Mock.
Record t : Type := Build {
  dimensions : list string;
  hierarchies : list (string * string);
  mdx_answer : option json;
  update_faults : list (string * exn);
  delete_fault : option exn
}.

Definition request_of (dimension_name : string) : string :=
  "/api/v1/Dimensions('" +:+ dimension_name +:+ "')".

Definition name_prefix : string :=
  "{" +:+ String dquote ("Name" +:+ String dquote (": " +:+ String dquote EmptyString)).

(** The body posted for a dimension called [n], reduced to its name. *)
Definition body_of (n : string) : string :=
  name_prefix +:+ n +:+ String dquote "}".

Fixpoint strip_prefix (p s : string) : option string :=
  match p, s with
  | EmptyString, _ => Some s
  | String a p', String b s' => if Ascii.eqb a b then strip_prefix p' s' else None
  | String _ _, EmptyString => None
  end.

Fixpoint take_until (stop : ascii) (s : string) : string :=
  match s with
  | EmptyString => EmptyString
  | String c rest => if Ascii.eqb c stop then EmptyString else String c (take_until stop rest)
  end.

Definition posted_name (data : string) : option string :=
  match strip_prefix name_prefix data with
  | Some rest => Some (take_until dquote rest)
  | None => None
  end.

Definition is_request_of (request n : string) : bool :=
  String.eqb (request_of n) request.

Fixpoint fault_of (h : string) (faults : list (string * exn)) : option exn :=
  match faults with
  | [] => None
  | (h', e) :: rest => if String.eqb h h' then Some e else fault_of h rest
  end.

Definition same_hierarchy (d h : string) (entry : string * string) : bool :=
  String.eqb d (fst entry) && case_and_space_insensitive_equals h (snd entry).

Definition with_dimensions (w : t) (ds : list string) : t :=
  Build ds (hierarchies w) (mdx_answer w) (update_faults w) (delete_fault w).

Definition with_hierarchies (w : t) (hs : list (string * string)) : t :=
  Build (dimensions w) hs (mdx_answer w) (update_faults w) (delete_fault w).

Definition names_answer (w : t) : json :=
  JObj [("value", JArr (map (fun n => JObj [("Name", JStr n)]) (dimensions w)))].

Definition POST (request data : string) (w : t) : t * outcome Response :=
  if String.eqb request "/api/v1/Dimensions" then
    match posted_name data with
    | Some n =>
        if existsb (String.eqb n) (dimensions w)
        then (w, Raised (TM1pyException "400"))
        else (with_dimensions w (dimensions w ++ [n]), Returned {| json_body := None |})
    | None => (w, Raised (TM1pyException "400"))
    end
  else (w, Returned {| json_body := mdx_answer w |}).

Definition GET (request data : string) (w : t) : t * outcome Response :=
  (w, Returned {| json_body := Some (names_answer w) |}).

Definition DELETE (request : string) (w : t) : t * outcome Response :=
  if existsb (is_request_of request) (dimensions w) then
    match delete_fault w with
    | Some e => (w, Raised e)
    | None =>
        (with_dimensions w
           (List.filter (fun n => negb (is_request_of request n)) (dimensions w)),
         Returned {| json_body := None |})
    end
  else (w, Raised (TM1pyException "404")).

Definition probe (request : string) (w : t) : t * outcome bool :=
  (w, Returned (existsb (is_request_of request) (dimensions w))).

Definition hierarchy_names (d : string) (w : t) : t * outcome (list string) :=
  (w, Returned (map snd (List.filter (fun entry => String.eqb d (fst entry))
                                     (hierarchies w)))).

Definition hierarchy_exists (d h : string) (w : t) : t * outcome bool :=
  (w, Returned (existsb (same_hierarchy d h) (hierarchies w))).

Definition hierarchy_update (h : Hierarchy.t) (w : t) : t * outcome unit :=
  match fault_of (Hierarchy.name h) (update_faults w) with
  | Some e => (w, Raised e)
  | None => (w, Returned tt)
  end.

Definition hierarchy_create (h : Hierarchy.t) (w : t) : t * outcome unit :=
  (with_hierarchies w
     (hierarchies w ++ [(Hierarchy.dimension_name h, Hierarchy.name h)]),
   Returned tt).

Definition hierarchy_delete (d h : string) (w : t) : t * outcome unit :=
  if existsb (same_hierarchy d h) (hierarchies w) then
    (with_hierarchies w
       (List.filter (fun entry => negb (same_hierarchy d h entry)) (hierarchies w)),
     Returned tt)
  else (w, Raised (TM1pyException "404")).

Definition ti (lines : list string) (w : t) : t * outcome unit :=
  (w, Returned tt).

#[global] Instance collaborators : Collaborators t := {
  rest_POST := POST;
  rest_GET := GET;
  rest_DELETE := DELETE;
  object_exists := probe;
  hierarchies_get_all_names := hierarchy_names;
  hierarchies_exists := hierarchy_exists;
  hierarchies_update := hierarchy_update;
  hierarchies_create := hierarchy_create;
  hierarchies_delete := hierarchy_delete;
  execute_ti_code := ti
}.

Definition empty : t := Build [] [] None [] None.
End Mock.

(** ** Example data *)

Module Examples.
Definition population : ElementAttribute.t := ElementAttribute.Build "Population" "Numeric".
Definition capital : ElementAttribute.t := ElementAttribute.Build "Capital" "String".
Definition code : ElementAttribute.t := ElementAttribute.Build "Code" "Alias".

Definition h_region : Hierarchy.t := Hierarchy.Build "Region" "Region" [population; capital].
Definition h_continent : Hierarchy.t := Hierarchy.Build "Continent" "Region" [code].
Definition h_leaves : Hierarchy.t := Hierarchy.Build "Leaves" "Region" [].
Definition h_leaves_spaced : Hierarchy.t := Hierarchy.Build " Leaves " "Region" [].
Definition h_region_lower : Hierarchy.t := Hierarchy.Build "region" "Region" [].

(** Dimension Region with the hierarchies Region and Continent. *)
Definition region : Dimension.t :=
  Dimension.Build "Region" [h_region; h_continent] (Mock.body_of "Region").

(** The same dimension holding Region and an explicit Leaves hierarchy. *)
Definition region_with_leaves : Dimension.t :=
  Dimension.Build "Region" [h_region; h_leaves] (Mock.body_of "Region").

Definition region_with_spaced_leaves : Dimension.t :=
  Dimension.Build "Region" [h_region; h_leaves_spaced] (Mock.body_of "Region").

(** The dimension with its one hierarchy spelled in lower case. *)
Definition region_lower : Dimension.t :=
  Dimension.Build "Region" [h_region_lower] (Mock.body_of "Region").

(** A server that already holds Region with the hierarchies Region and
    Leaves. *)
Definition server_with_region : Mock.t :=
  Mock.Build ["Region"] [("Region", "Region"); ("Region", "Leaves")] None [] None.

(** A server holding Region with the single hierarchy Region. *)
Definition server_one_hierarchy : Mock.t :=
  Mock.Build ["Region"] [("Region", "Region")] None [] None.

(** An empty server on which the update of Continent, the second
    hierarchy of [region], raises [e]. *)
Definition server_failing_update (e : exn) : Mock.t :=
  Mock.Build [] [] None [("Continent", e)] None.

(** The same, with the DELETE failing as well. *)
Definition server_failing_update_and_delete (e e' : exn) : Mock.t :=
  Mock.Build [] [] None [("Continent", e)] (Some e').

Definition member (ordinal : Z) (n : string) : json :=
  JObj [("Ordinal", JNum ordinal); ("Element", JObj [("Name", JStr n)])].

(** An answer of the MDX endpoint with two rows; the second row has two
    members. *)
Definition two_rows : json :=
  JObj [("Axes", JArr [JObj [("Ordinal", JNum 1);
                             ("Tuples", JArr [JObj [("Ordinal", JNum 0);
                                                    ("Members", JArr [member 0 "Europe"])];
                                              JObj [("Ordinal", JNum 1);
                                                    ("Members", JArr [member 0 "Asia";
                                                                      member 1 "Japan"])]])]])].

(** An answer whose second row has no member. *)
Definition empty_row : json :=
  JObj [("Axes", JArr [JObj [("Ordinal", JNum 1);
                             ("Tuples", JArr [JObj [("Ordinal", JNum 0);
                                                    ("Members", JArr [member 0 "Europe"])];
                                              JObj [("Ordinal", JNum 1);
                                                    ("Members", JArr [])]])]])].

Definition server_answering (answer : json) : Mock.t :=
  Mock.Build ["Region"] [("Region", "Region")] (Some answer) [] None.

Definition region_members : string := "{[Region].[Europe], [Region].[Asia]}".

(** A server holding the dimensions Region and Product. *)
Definition server_two_dimensions : Mock.t :=
  Mock.Build ["Region"; "Product"] [] None [] None.
End Examples.

(** ** Further readings of a trace *)

(** [len(hierarchy.element_attributes) > 0] *)
Definition has_attributes (h : Hierarchy.t) : bool :=
  Nat.ltb 0 (length (Hierarchy.element_attributes h)).




(** The calls of the [except] block of [create]. *)
Definition is_undo_event (ev : event) : bool :=
  match ev with ObjectExists _ _ | RestDELETE _ _ => true | _ => false end.

(** The calls of the second loop of [update]. *)
Definition is_upsert_step (ev : event) : bool :=
  match ev with
  | HierExists _ _ _ | HierUpdate _ _ | HierCreate _ _ => true
  | _ => false
  end.

(** An event of [update d] names only what [d] holds: the listing and the
    deletions are keyed by the name of [d], a probe by the dimension name
    and the name of one of its hierarchies, an update or a creation carries
    one of its hierarchies. *)
Definition about_dimension (d : Dimension.t) (ev : event) : Prop :=
  match ev with
  | HierGetAllNames dn _ => dn = Dimension.name d
  | HierDelete dn _ _ => dn = Dimension.name d
  | HierExists dn hn _ =>
      exists h, h ∈ Dimension.hierarchies d /\
                dn = Hierarchy.dimension_name h /\ hn = Hierarchy.name h
  | HierUpdate h _ | HierCreate h _ => h ∈ Dimension.hierarchies d
  | _ => False
  end.

(** The statement built for one element attribute when its type is not
    empty. *)
Definition attr_insert_text (d : Dimension.t) (ea : ElementAttribute.t) : string :=
  "AttrInsert('" +:+ Dimension.name d +:+ "', '', '" +:+
  ElementAttribute.name ea +:+ "', '" +:+
  head_char (ElementAttribute.attribute_type ea) +:+ "');".

Definition typed (h : Hierarchy.t) : Prop :=
  Forall (fun ea => ElementAttribute.attribute_type ea <> EmptyString)
         (Hierarchy.element_attributes h).

(** A character that [json.dumps] copies unchanged into a string literal. *)
Definition plain_char (c : ascii) : bool :=
  let n := nat_of_ascii c in
  Nat.leb 32 n && negb (Nat.eqb n 34) && negb (Nat.eqb n 92).

Fixpoint plain (s : string) : bool :=
  match s with
  | EmptyString => true
  | String c rest => plain_char c && plain rest
  end.

(** Further example data. *)
Module MoreExamples.
(** A server listing two hierarchies of Region that differ in case only,
    neither of them held by [Examples.region]. *)
Definition server_case_variants : Mock.t :=
  Mock.Build ["Region"] [("Region", "Old"); ("Region", "old")] None [] None.

Definition untyped : ElementAttribute.t := ElementAttribute.Build "Broken" "".

Definition h_untyped : Hierarchy.t := Hierarchy.Build "Draft" "Region" [untyped].

(** Region with a second hierarchy whose attribute has an empty type, and a
    third one after it. *)
Definition region_untyped : Dimension.t :=
  Dimension.Build "Region" [Examples.h_region; h_untyped; Examples.h_continent]
                  (Mock.body_of "Region").
End MoreExamples.

(** A transport that answers every request with one canned outcome; the
    probes answer false and the hierarchy and process services do nothing. *)
Module Canned.
Definition t : Type := outcome Response.

Definition answering (v : json) : t := Returned {| json_body := Some v |}.

#[global] Instance collaborators : Collaborators t := {
  rest_POST := fun _ _ w => (w, w);
  rest_GET := fun _ _ w => (w, w);
  rest_DELETE := fun _ w => (w, w);
  object_exists := fun _ w => (w, Returned false);
  hierarchies_get_all_names := fun _ w => (w, Returned []);
  hierarchies_exists := fun _ _ w => (w, Returned false);
  hierarchies_update := fun _ w => (w, Returned tt);
  hierarchies_create := fun _ w => (w, Returned tt);
  hierarchies_delete := fun _ _ w => (w, Returned tt);
  execute_ti_code := fun _ w => (w, Returned tt)
}.
End Canned.

(** * Properties *)

Local Open Scope list_scope.

(** ** The monad *)

Section MonadFacts.
Context {W : Type}.

Lemma call_run {A} (op : W -> W * outcome A) (log : outcome A -> event) s w' out :
  op (world s) = (w', out) ->
  call op log s = (State w' (trace s ++ [log out]), out).
Proof. intros Hop. unfold call. rewrite Hop. reflexivity. Qed.

Lemma bind_returned {A B} (m : M W A) (k : A -> M W B) s s' a :
  m s = (s', Returned a) -> bind m k s = k a s'.
Proof. intros Hm. unfold bind. rewrite Hm. reflexivity. Qed.

Lemma bind_raised {A B} (m : M W A) (k : A -> M W B) s s' e :
  m s = (s', Raised e) -> bind m k s = (s', Raised e).
Proof. intros Hm. unfold bind. rewrite Hm. reflexivity. Qed.

Lemma emits_ret {A} P (a : A) : emits P (@ret W A a).
Proof. intros s. exists []. split; [symmetry; apply app_nil_r | constructor]. Qed.

Lemma emits_raise {A} P e : emits P (@raise W A e).
Proof. intros s. exists []. split; [symmetry; apply app_nil_r | constructor]. Qed.

Lemma emits_lift {A} P (o : outcome A) : emits P (@lift W A o).
Proof. intros s. exists []. split; [symmetry; apply app_nil_r | constructor]. Qed.

Lemma emits_call {A} (P : event -> Prop) (op : W -> W * outcome A) log :
  (forall out, P (log out)) -> emits P (call op log).
Proof.
  intros HP s. unfold call. destruct (op (world s)) as [w' out]. simpl.
  exists [log out]. split; [reflexivity | repeat constructor; apply HP].
Qed.

Lemma emits_bind {A B} P (m : M W A) (k : A -> M W B) :
  emits P m -> (forall a, emits P (k a)) -> emits P (bind m k).
Proof.
  intros Hm Hk s. unfold bind. destruct (Hm s) as (t & Ht & HPt).
  destruct (m s) as [s' [e | a]]; simpl in *.
  - exists t. auto.
  - destruct (Hk a s') as (t' & Ht' & HPt').
    exists (t ++ t'). split.
    + rewrite Ht', Ht. symmetry. apply app_assoc.
    + apply Forall_app. auto.
Qed.

Lemma emits_when P (c : bool) (m : M W unit) : emits P m -> emits P (when c m).
Proof. destruct c; simpl; [auto | intros _; apply emits_ret]. Qed.

Lemma emits_for_each {A} P (l : list A) (f : A -> M W unit) :
  (forall x, emits P (f x)) -> emits P (for_each l f).
Proof.
  intros Hf. induction l as [| x rest IH]; simpl.
  - apply emits_ret.
  - apply emits_bind; auto.
Qed.

Lemma emits_weaken {A} (P Q : event -> Prop) (m : M W A) :
  (forall ev, P ev -> Q ev) -> emits P m -> emits Q m.
Proof.
  intros HPQ Hm s. destruct (Hm s) as (t & Ht & HPt).
  exists t. split; [assumption |]. eapply Forall_impl; eauto.
Qed.
End MonadFacts.

(** ** create *)

Section Create.
Context {W : Type} `{!Collaborators W}.

Lemma create_steps_emits (d : Dimension.t) :
  emits (fun ev => is_create_step ev = true) (DimensionService.create_steps (W:=W) d).
Proof.
  unfold DimensionService.create_steps.
  apply emits_bind; [apply emits_call; reflexivity |].
  intros response. apply emits_bind; [| intros; apply emits_ret].
  apply emits_for_each. intros h. apply emits_when.
  apply emits_call. reflexivity.
Qed.

(** Where a DELETE sits in a trace whose first part has none. *)
Lemma delete_after_prefix (l1 l2 pre post : list event) request out :
  Forall (fun ev => is_rest_delete ev = false) l1 ->
  l1 ++ l2 = pre ++ RestDELETE request out :: post ->
  exists pre2, pre = l1 ++ pre2 /\ l2 = pre2 ++ RestDELETE request out :: post.
Proof.
  intros Hfree. revert pre. induction Hfree as [| x l1 Hx _ IH]; intros pre Heq.
  - exists pre. auto.
  - destruct pre as [| y pre]; simpl in Heq.
    + injection Heq as -> _. discriminate Hx.
    + injection Heq as -> Heq. destruct (IH _ Heq) as (pre2 & -> & ->).
      exists pre2. auto.
Qed.

(** The whole trace of [create]: the initial probe, the steps of the
    [try] block, and what the handler adds, which is nothing, a probe, or
    a confirming probe followed by the DELETE. *)
Lemma create_trace (d : Dimension.t) (w : W) :
  let request := "/api/v1/Dimensions('" +:+ Dimension.name d +:+ "')" in
  exists first steps undo,
    trace (fst (run (DimensionService.create d) w)) =
      ObjectExists request first :: steps ++ undo /\
    Forall (fun ev => is_create_step ev = true) steps /\
    (undo = [] \/
     (exists again, undo = [ObjectExists request again]) \/
     (exists gone, undo = [ObjectExists request (Returned true); RestDELETE request gone])).
Proof.
  intros request. unfold run, DimensionService.create, DimensionService.exists_.
  fold request. unfold bind at 1. unfold call at 1. simpl.
  destruct (object_exists request w) as [w1 [e | [|]]]; simpl.
  - exists (Raised e), [], []. repeat split; auto.
  - exists (Returned true), [], []. repeat split; auto.
  - unfold try_except_TM1pyException.
    destruct (create_steps_emits d (State w1 [ObjectExists request (Returned false)]))
      as (steps & Hsteps & Hall).
    destruct (DimensionService.create_steps d _) as [s2 [e | response]]; simpl in *.
    + destruct (is_TM1pyException e).
      * unfold DimensionService.create_undo, DimensionService.exists_,
          DimensionService.delete. fold request.
        unfold bind at 1. unfold call at 1.
        destruct (object_exists request (world s2)) as [w3 [e3 | [|]]]; simpl.
        -- exists (Returned false), steps, [ObjectExists request (Raised e3)].
           rewrite Hsteps. repeat split; eauto.
        -- unfold bind, call. simpl.
           destruct (rest_DELETE request w3) as [w4 [e4 | r4]]; simpl;
             rewrite Hsteps, <- !app_assoc; simpl.
           ++ exists (Returned false), steps,
                [ObjectExists request (Returned true); RestDELETE request (Raised e4)].
              repeat split; eauto.
           ++ exists (Returned false), steps,
                [ObjectExists request (Returned true); RestDELETE request (Returned r4)].
              repeat split; eauto.
        -- unfold bind. simpl.
           exists (Returned false), steps, [ObjectExists request (Returned false)].
           rewrite Hsteps. repeat split; eauto.
      * simpl. exists (Returned false), steps, []. rewrite Hsteps, app_nil_r. repeat split; auto.
    + exists (Returned false), steps, []. rewrite Hsteps, app_nil_r. repeat split; auto.
Qed.

(** C2. When the probe reports that the dimension exists, [create] raises
    the exception "Dimension already exists" (the specification's
    AlreadyExistsError) and the probe is the only call it makes: no POST,
    no hierarchy update and no DELETE is sent. *)
Theorem create_existing_dimension (d : Dimension.t) (w w' : W) :
  object_exists ("/api/v1/Dimensions('" +:+ Dimension.name d +:+ "')") w
    = (w', Returned true) ->
  run (DimensionService.create d) w =
    (State w' [ObjectExists ("/api/v1/Dimensions('" +:+ Dimension.name d +:+ "')")
                            (Returned true)],
     Raised (Exception_ "Dimension already exists")) /\
  List.filter is_mutation (trace (fst (run (DimensionService.create d) w))) = [].
Proof.
  intros Hprobe.
  assert (run (DimensionService.create d) w =
    (State w' [ObjectExists ("/api/v1/Dimensions('" +:+ Dimension.name d +:+ "')")
                            (Returned true)],
     Raised (Exception_ "Dimension already exists"))) as Hrun.
  { unfold run, DimensionService.create.
    erewrite bind_returned
      by (unfold DimensionService.exists_; apply call_run; exact Hprobe).
    reflexivity. }
  split; [exact Hrun |]. rewrite Hrun. reflexivity.
Qed.

(** C9. The handler of [create] runs for [TM1pyException] only: when the
    POST or a hierarchy update raises anything else, [create] stops in the
    state of the failure and raises that exception, with no probe and no
    DELETE after it.  And wherever a DELETE appears in the trace of
    [create], the call just before it is the existence probe of the same
    request, answered true. *)
Theorem create_handler_is_guarded (d : Dimension.t) (w : W) :
  (forall s1 s2 e,
      run (DimensionService.exists_ (Dimension.name d)) w = (s1, Returned false) ->
      DimensionService.create_steps d s1 = (s2, Raised e) ->
      is_TM1pyException e = false ->
      run (DimensionService.create d) w = (s2, Raised e)) /\
  (forall pre request out post,
      trace (fst (run (DimensionService.create d) w))
        = pre ++ RestDELETE request out :: post ->
      exists pre', pre = pre' ++ [ObjectExists request (Returned true)]).
Proof.
  split.
  - intros s1 s2 e Hprobe Hsteps Hother.
    unfold run, DimensionService.create.
    erewrite bind_returned by exact Hprobe.
    unfold try_except_TM1pyException. rewrite Hsteps, Hother. reflexivity.
  - intros pre request out post Htrace.
    destruct (create_trace d w) as (first & steps & undo & Hshape & Hsteps & Hundo).
    rewrite Hshape in Htrace.
    change (ObjectExists ("/api/v1/Dimensions('" +:+ Dimension.name d +:+ "')") first
            :: steps ++ undo)
      with ((ObjectExists ("/api/v1/Dimensions('" +:+ Dimension.name d +:+ "')") first
             :: steps) ++ undo) in Htrace.
    apply delete_after_prefix in Htrace as (pre2 & -> & Hundo2).
    + destruct Hundo as [-> | [[again ->] | [gone ->]]].
      * destruct pre2; discriminate Hundo2.
      * destruct pre2 as [| ? [| ? ?]]; discriminate Hundo2.
      * destruct pre2 as [| x [| ? [| ? ?]]]; try discriminate Hundo2.
        simplify_eq/=. eexists (_ :: steps). reflexivity.
    + constructor; [reflexivity |].
      eapply Forall_impl; [exact Hsteps |].
      intros [] Hev; simpl in *; congruence.
Qed.

(** C1, as amended.  When the POST or a hierarchy update raises a
    [TM1pyException], [create] probes the dimension again.  If the probe
    answers false nothing more is sent; if it answers true one DELETE of
    the dimension is sent.  Provided the probe and the DELETE return,
    [create] raises the original exception, the calls after the failure
    are that probe and that DELETE only (no hierarchy call undoes the
    updates already made), and on a server where a returned DELETE removes
    the dimension and the probe is repeatable, the dimension does not
    exist afterwards. *)
Theorem create_compensates (d : Dimension.t) (w : W) (s1 s2 s3 : state W)
    (r : string) (b : bool) :
  delete_removes -> probe_repeatable ->
  run (DimensionService.exists_ (Dimension.name d)) w = (s1, Returned false) ->
  DimensionService.create_steps d s1 = (s2, Raised (TM1pyException r)) ->
  DimensionService.exists_ (Dimension.name d) s2 = (s3, Returned b) ->
  (b = true ->
   exists s4 r', DimensionService.delete (Dimension.name d) s3 = (s4, Returned r')) ->
  exists s' undo,
    run (DimensionService.create d) w = (s', Raised (TM1pyException r)) /\
    trace s' = trace s2 ++
               ObjectExists ("/api/v1/Dimensions('" +:+ Dimension.name d +:+ "')")
                            (Returned b) :: undo /\
    (if b
     then exists r', undo = [RestDELETE ("/api/v1/Dimensions('" +:+ Dimension.name d +:+ "')")
                                        (Returned r')]
     else undo = []) /\
    snd (DimensionService.exists_ (Dimension.name d) s') = Returned false.
Proof.
  intros Hremoves Hrepeat Hprobe Hsteps Hagain Hdelete.
  unfold run, DimensionService.create.
  erewrite bind_returned by exact Hprobe.
  unfold try_except_TM1pyException. rewrite Hsteps. simpl.
  unfold DimensionService.create_undo.
  erewrite bind_returned by exact Hagain.
  unfold DimensionService.exists_, call in Hagain.
  destruct (object_exists _ (world s2)) as [w3 o3] eqn:Hobj.
  injection Hagain as <- ->.
  destruct b; simpl.
  - destruct (Hdelete eq_refl) as (s4 & r' & Hdel).
    erewrite bind_returned
      by (erewrite bind_returned by exact Hdel; reflexivity).
    unfold DimensionService.delete, call in Hdel.
    destruct (rest_DELETE _ _) as [w4 o4] eqn:Hrest. simpl in Hrest.
    injection Hdel as <- ->.
    eexists _, _. split; [reflexivity |]. simpl.
    split; [rewrite <- app_assoc; reflexivity |].
    split; [eexists; reflexivity |].
    unfold DimensionService.exists_, call. simpl.
    pose proof (Hremoves _ _ _ _ Hrest) as Hgone.
    destruct (object_exists _ w4) as [w5 o5]. simpl in *. exact Hgone.
  - eexists _, []. split; [reflexivity |]. simpl.
    split; [reflexivity |]. split; [reflexivity |].
    unfold DimensionService.exists_, call. simpl.
    pose proof (Hrepeat _ _ _ _ Hobj) as Hsame.
    destruct (object_exists _ w3) as [w5 o5]. simpl in *. exact Hsame.
Qed.
End Create.

(** *** create on the example server *)

Lemma existsb_filter_negb {A} (p : A -> bool) (l : list A) :
  existsb p (List.filter (fun x => negb (p x)) l) = false.
Proof.
  induction l as [| x l IH]; simpl; [reflexivity |].
  destruct (p x) eqn:Hp; simpl; [exact IH |]. rewrite Hp. exact IH.
Qed.

Lemma mock_delete_removes : delete_removes (W := Mock.t).
Proof.
  intros request w w' r. simpl. unfold Mock.DELETE, Mock.probe.
  destruct (existsb _ _); [| discriminate].
  destruct (Mock.delete_fault w); [discriminate |].
  intros [= <- _]. simpl. f_equal. apply existsb_filter_negb.
Qed.

Lemma mock_probe_repeatable : probe_repeatable (W := Mock.t).
Proof.
  intros request w w' b. simpl. unfold Mock.probe.
  intros [= <- <-]. reflexivity.
Qed.

Lemma create_existing_dimension_witness :
  run (DimensionService.create Examples.region) Examples.server_with_region =
    (State Examples.server_with_region
           [ObjectExists "/api/v1/Dimensions('Region')" (Returned true)],
     Raised (Exception_ "Dimension already exists")) /\
  List.filter is_mutation
    (trace (fst (run (DimensionService.create Examples.region)
                     Examples.server_with_region))) = [].
Proof.
  apply (create_existing_dimension Examples.region
           Examples.server_with_region Examples.server_with_region).
  reflexivity.
Defined.

(** With the update of the second hierarchy raising [ConnectionError], the
    exception reaches the caller, no DELETE is in the trace, and the
    dimension is still reported to exist. *)
Lemma create_handler_is_guarded_witness :
  run (DimensionService.create Examples.region)
      (Examples.server_failing_update ConnectionError) =
    (fst (run (DimensionService.create Examples.region)
              (Examples.server_failing_update ConnectionError)),
     Raised ConnectionError) /\
  List.filter is_rest_delete
    (trace (fst (run (DimensionService.create Examples.region)
                     (Examples.server_failing_update ConnectionError)))) = [].
Proof.
  split; [| reflexivity].
  eapply (proj1 (create_handler_is_guarded Examples.region
                   (Examples.server_failing_update ConnectionError))).
  - reflexivity.
  - reflexivity.
  - reflexivity.
Defined.

(** With the update of the second hierarchy raising a [TM1pyException] and
    the DELETE returning. *)
Lemma create_compensates_witness :
  exists s' undo,
    run (DimensionService.create Examples.region)
        (Examples.server_failing_update (TM1pyException "500"))
      = (s', Raised (TM1pyException "500")) /\
    List.filter is_rest_delete (trace s') = undo /\
    undo = [RestDELETE "/api/v1/Dimensions('Region')" (Returned {| json_body := None |})] /\
    snd (DimensionService.exists_ "Region" s') = Returned false.
Proof.
  destruct (create_compensates Examples.region
              (Examples.server_failing_update (TM1pyException "500"))
              (fst (run (DimensionService.exists_ "Region")
                        (Examples.server_failing_update (TM1pyException "500"))))
              (fst (DimensionService.create_steps Examples.region
                      (fst (run (DimensionService.exists_ "Region")
                                (Examples.server_failing_update (TM1pyException "500"))))))
              (fst (DimensionService.exists_ "Region"
                      (fst (DimensionService.create_steps Examples.region
                              (fst (run (DimensionService.exists_ "Region")
                                        (Examples.server_failing_update
                                           (TM1pyException "500"))))))))
              "500" true mock_delete_removes mock_probe_repeatable)
    as (s' & undo & Hrun & Htrace & [r' Hundo] & Hgone).
  - reflexivity.
  - reflexivity.
  - reflexivity.
  - intros _. eexists _, _. reflexivity.
  - exists s', undo. split; [exact Hrun |].
    injection Hrun as <-. subst undo. vm_compute in Htrace. vm_compute.
    injection Htrace as <-. repeat split.
Defined.

(** C1, as stated, fails.  First run: the update of the second hierarchy
    raises an exception that is not a [TM1pyException]; no DELETE is sent
    and the dimension is still there.  Second run: the update raises a
    [TM1pyException] and the compensating DELETE raises too; the caller gets
    the exception of the DELETE, not the original one, and the dimension is
    still there. *)
Lemma create_can_leave_the_dimension_behind :
  (snd (run (DimensionService.create Examples.region)
            (Examples.server_failing_update ConnectionError))
     = Raised ConnectionError /\
   List.filter is_rest_delete
     (trace (fst (run (DimensionService.create Examples.region)
                      (Examples.server_failing_update ConnectionError)))) = [] /\
   snd (DimensionService.exists_ "Region"
          (fst (run (DimensionService.create Examples.region)
                    (Examples.server_failing_update ConnectionError))))
     = Returned true) /\
  (snd (run (DimensionService.create Examples.region)
            (Examples.server_failing_update_and_delete
               (TM1pyException "500") (TM1pyException "503")))
     = Raised (TM1pyException "503") /\
   snd (DimensionService.exists_ "Region"
          (fst (run (DimensionService.create Examples.region)
                    (Examples.server_failing_update_and_delete
                       (TM1pyException "500") (TM1pyException "503")))))
     = Returned true).
Proof. vm_compute. repeat split. Qed.

(** ** update *)

Section Update.
Context {W : Type} `{!Collaborators W}.

Lemma deleted_hierarchies_app (t1 t2 : list event) :
  deleted_hierarchies (t1 ++ t2) = deleted_hierarchies t1 ++ deleted_hierarchies t2.
Proof. apply omap_app. Qed.

Lemma deleted_hierarchies_upserts (t : list event) :
  Forall upsert_event t -> deleted_hierarchies t = [].
Proof.
  induction 1 as [| ev t Hev _ IH]; [reflexivity |].
  destruct ev; simpl in *; try contradiction; exact IH.
Qed.

(** The first loop: the deletions issued are those of a prefix of the
    list, the whole list when the loop returns. *)
Lemma delete_loop (n : string) (l : list string) (s s' : state W) (out : outcome unit) :
  for_each l (fun h => call (hierarchies_delete n h) (HierDelete n h)) s = (s', out) ->
  exists done dels,
    done `prefix_of` l /\
    trace s' = trace s ++ dels /\
    Forall (fun ev => is_hier_delete ev = true) dels /\
    deleted_hierarchies dels = map (pair n) done /\
    (out = Returned tt -> done = l).
Proof.
  revert s. induction l as [| h l IH]; intros s; simpl.
  - intros [= <- <-]. exists [], []. rewrite app_nil_r.
    refine (conj _ (conj _ (conj _ (conj _ _)))); auto.
  - unfold bind at 1. unfold call at 1.
    destruct (hierarchies_delete n h (world s)) as [w' [e | []]]; simpl.
    + intros [= <- <-]. exists [h], [HierDelete n h (Raised e)].
      refine (conj _ (conj _ (conj _ (conj _ _)))); auto.
      * exists l. reflexivity.
      * discriminate.
    + intros Hrest.
      destruct (IH _ Hrest) as (done & dels & [k Hk] & Htrace & Hdels & Hnames & Hall).
      exists (h :: done), (HierDelete n h (Returned tt) :: dels).
      refine (conj _ (conj _ (conj _ (conj _ _)))).
      * exists k. rewrite Hk. reflexivity.
      * rewrite Htrace. simpl. rewrite <- app_assoc. reflexivity.
      * constructor; auto.
      * simpl. rewrite Hnames. reflexivity.
      * intros Hret. rewrite (Hall Hret). reflexivity.
Qed.

Lemma upsert_emits (h : Hierarchy.t) :
  emits upsert_event (DimensionService.upsert (W := W) h).
Proof.
  unfold DimensionService.upsert.
  destruct (case_and_space_insensitive_equals (Hierarchy.name h) "Leaves") eqn:Hname;
    simpl; [apply emits_ret |].
  apply emits_bind; [apply emits_call; intros; exact I |].
  intros [|]; apply emits_call; intros; exact Hname.
Qed.

(** The second loop, when it returns. *)
Lemma upsert_loop (hs : list Hierarchy.t) (s s' : state W) :
  for_each hs DimensionService.upsert s = (s', Returned tt) ->
  exists t, trace s' = trace s ++ t /\ upserts hs t.
Proof.
  revert s. induction hs as [| h hs IH]; intros s; simpl.
  - intros [= <-]. exists []. rewrite app_nil_r. split; [reflexivity | constructor].
  - unfold bind at 1. unfold DimensionService.upsert at 1.
    destruct (case_and_space_insensitive_equals (Hierarchy.name h) "Leaves") eqn:Hname;
      simpl.
    + intros Hrest. destruct (IH _ Hrest) as (t & Ht & Hups).
      exists t. split; [exact Ht |]. apply upserts_leaves; assumption.
    + unfold bind at 1. unfold call at 1.
      destruct (hierarchies_exists _ _ (world s)) as [w1 [e | [|]]]; simpl;
        [discriminate | |].
      * unfold call at 1. simpl.
        destruct (hierarchies_update h w1) as [w2 [e | []]]; simpl; [discriminate |].
        intros Hrest. destruct (IH _ Hrest) as (t & Ht & Hups). simpl in Ht.
        eexists. split; [| apply upserts_update; eassumption].
        rewrite Ht, <- !app_assoc. reflexivity.
      * unfold call at 1. simpl.
        destruct (hierarchies_create h w1) as [w2 [e | []]]; simpl; [discriminate |].
        intros Hrest. destruct (IH _ Hrest) as (t & Ht & Hups). simpl in Ht.
        eexists. split; [| apply upserts_create; eassumption].
        rewrite Ht, <- !app_assoc. reflexivity.
Qed.

Lemma update_run (d : Dimension.t) (w : W) :
  run (DimensionService.update d) w =
    match hierarchies_get_all_names (Dimension.name d) w with
    | (w1, Raised e) =>
        (State w1 [HierGetAllNames (Dimension.name d) (Raised e)], Raised e)
    | (w1, Returned names) =>
        match for_each (elements (DimensionService.hierarchies_to_be_removed names d))
                (fun h => call (hierarchies_delete (Dimension.name d) h)
                               (HierDelete (Dimension.name d) h))
                (State w1 [HierGetAllNames (Dimension.name d) (Returned names)]) with
        | (s2, Raised e) => (s2, Raised e)
        | (s2, Returned _) => for_each (Dimension.hierarchies d) DimensionService.upsert s2
        end
    end.
Proof.
  unfold run, DimensionService.update. unfold bind at 1. unfold call at 1. simpl.
  destruct (hierarchies_get_all_names (Dimension.name d) w) as [w1 [e | names]];
    reflexivity.
Qed.

(** The whole trace of [update]: the listing, then deletions, then the
    events of the second loop. *)
Lemma update_trace (d : Dimension.t) (w : W) :
  exists done dels ups,
    trace (fst (run (DimensionService.update d) w)) =
      HierGetAllNames (Dimension.name d)
                      (snd (hierarchies_get_all_names (Dimension.name d) w))
      :: dels ++ ups /\
    Forall (fun ev => is_hier_delete ev = true) dels /\
    deleted_hierarchies dels = map (pair (Dimension.name d)) done /\
    Forall upsert_event ups /\
    (forall names,
        snd (hierarchies_get_all_names (Dimension.name d) w) = Returned names ->
        done `prefix_of` elements (DimensionService.hierarchies_to_be_removed names d) /\
        (snd (run (DimensionService.update d) w) = Returned tt ->
         done = elements (DimensionService.hierarchies_to_be_removed names d) /\
         upserts (Dimension.hierarchies d) ups)).
Proof.
  rewrite update_run.
  destruct (hierarchies_get_all_names (Dimension.name d) w) as [w1 [e | names]]; simpl.
  - exists [], [], [].
    refine (conj _ (conj _ (conj _ (conj _ _)))); auto. discriminate.
  - destruct (for_each (elements _) _ _) as [s2 out] eqn:Hloop.
    destruct (delete_loop _ _ _ _ _ Hloop)
      as (done & dels & Hprefix & Htrace & Hdels & Hnames & Hall).
    simpl in Htrace. destruct out as [e | []]; simpl.
    + exists done, dels, []. rewrite app_nil_r.
      refine (conj _ (conj _ (conj _ (conj _ _)))); auto.
      intros ? [= <-]. split; [exact Hprefix | discriminate].
    + destruct (emits_for_each upsert_event (Dimension.hierarchies d)
                  DimensionService.upsert upsert_emits s2) as (ups & Hups & Hev).
      exists done, dels, ups.
      refine (conj _ (conj _ (conj _ (conj _ _)))); auto.
      * rewrite Hups, Htrace. reflexivity.
      * intros ? [= <-]. split; [exact Hprefix |].
        intros Hret. split; [auto |].
        destruct (for_each (Dimension.hierarchies d) _ s2) as [s3 [e | []]] eqn:Hloop2;
          simpl in *; [discriminate |].
        destruct (upsert_loop _ _ _ Hloop2) as (t & Ht & Hshape).
        rewrite Ht in Hups. apply app_inv_head in Hups. subst t. exact Hshape.
Qed.

Lemma emits_for_each_in {A} (P : event -> Prop) (l : list A) (f : A -> M W unit) :
  (forall x, x ∈ l -> emits P (f x)) -> emits P (for_each l f).
Proof.
  induction l as [| x rest IH]; intros Hf; simpl.
  - apply emits_ret.
  - apply emits_bind.
    + apply Hf. left.
    + intros _. apply IH. intros y Hy. apply Hf. right. exact Hy.
Qed.

(** The first loop, exactly: every deletion returned, or the deletions
    before the first one that raised, then that one. *)
Lemma delete_loop_shape (n : string) (l : list string) (s s' : state W)
    (out : outcome unit) :
  for_each l (fun h => call (hierarchies_delete n h) (HierDelete n h)) s = (s', out) ->
  (out = Returned tt /\
   trace s' = trace s ++ map (fun h => HierDelete n h (Returned tt)) l) \/
  (exists before h after e,
      l = before ++ h :: after /\ out = Raised e /\
      trace s' = trace s ++ map (fun h => HierDelete n h (Returned tt)) before
                         ++ [HierDelete n h (Raised e)]).
Proof.
  revert s. induction l as [| h l IH]; intros s; simpl.
  - intros [= <- <-]. left. rewrite app_nil_r. auto.
  - unfold bind at 1. unfold call at 1.
    destruct (hierarchies_delete n h (world s)) as [w' [e | []]]; simpl.
    + intros [= <- <-]. right. exists [], h, l, e. auto.
    + intros Hrest. destruct (IH _ Hrest) as [[-> Htrace] | Hfail].
      * left. split; [reflexivity |]. rewrite Htrace. simpl.
        rewrite <- app_assoc. reflexivity.
      * destruct Hfail as (before & h' & after & e & -> & -> & Htrace).
        right. exists (h :: before), h', after, e.
        refine (conj eq_refl (conj eq_refl _)).
        rewrite Htrace. simpl. rewrite <- !app_assoc. reflexivity.
Qed.

Lemma upsert_about (d : Dimension.t) (h : Hierarchy.t) :
  h ∈ Dimension.hierarchies d ->
  emits (about_dimension d) (DimensionService.upsert (W := W) h).
Proof.
  intros Hin. unfold DimensionService.upsert. apply emits_when.
  apply emits_bind.
  - apply emits_call. intros out. simpl. exists h. auto.
  - intros [|]; apply emits_call; intros out; exact Hin.
Qed.

(** The three ways [update] can run. *)
Lemma update_cases (d : Dimension.t) (w : W) :
  (exists e,
      snd (run (DimensionService.update d) w) = Raised e /\
      trace (fst (run (DimensionService.update d) w)) =
        [HierGetAllNames (Dimension.name d) (Raised e)]) \/
  (exists names before h after e,
      elements (DimensionService.hierarchies_to_be_removed names d)
        = before ++ h :: after /\
      snd (run (DimensionService.update d) w) = Raised e /\
      trace (fst (run (DimensionService.update d) w)) =
        HierGetAllNames (Dimension.name d) (Returned names)
        :: map (fun h => HierDelete (Dimension.name d) h (Returned tt)) before
        ++ [HierDelete (Dimension.name d) h (Raised e)]) \/
  (exists names ups,
      trace (fst (run (DimensionService.update d) w)) =
        HierGetAllNames (Dimension.name d) (Returned names)
        :: map (fun h => HierDelete (Dimension.name d) h (Returned tt))
               (elements (DimensionService.hierarchies_to_be_removed names d))
        ++ ups /\
      Forall upsert_event ups /\
      Forall (about_dimension d) ups).
Proof.
  rewrite update_run.
  destruct (hierarchies_get_all_names (Dimension.name d) w) as [w1 [e | names]]; simpl.
  - left. exists e. auto.
  - right. destruct (for_each (elements _) _ _) as [s2 out] eqn:Hloop.
    destruct (delete_loop_shape _ _ _ _ _ Hloop) as [[-> Htrace] | Hfail].
    + right. simpl in Htrace.
      destruct (emits_for_each upsert_event (Dimension.hierarchies d)
                  DimensionService.upsert upsert_emits s2) as (ups & Hups & Hev).
      destruct (emits_for_each_in (about_dimension d) (Dimension.hierarchies d)
                  DimensionService.upsert (upsert_about d) s2) as (ups' & Hups' & Hev').
      assert (ups' = ups) as ->
        by (rewrite Hups in Hups'; apply app_inv_head in Hups'; congruence).
      exists names, ups. rewrite Hups, Htrace. auto.
    + left. destruct Hfail as (before & h & after & e & Hsplit & -> & Htrace).
      exists names, before, h, after, e. simpl in *. rewrite Htrace. auto.
Qed.

Lemma deleted_hierarchies_deletions (n : string) (o : outcome unit) (l : list string) :
  deleted_hierarchies (map (fun h => HierDelete n h o) l) = map (pair n) l.
Proof. induction l as [| h l IH]; simpl; [reflexivity |]. rewrite IH. reflexivity. Qed.

(** Names taken, without repetition, from the names to be removed, paired
    with the name of the dimension. *)
Lemma pairs_of_removed (d : Dimension.t) (names removed : list string) :
  NoDup removed ->
  (forall x, x ∈ removed ->
             x ∈ elements (DimensionService.hierarchies_to_be_removed names d)) ->
  NoDup (map (pair (Dimension.name d)) removed) /\
  (forall dn x, (dn, x) ∈ map (pair (Dimension.name d)) removed ->
                dn = Dimension.name d /\ x ∈ names /\ x ∉ Dimension.hierarchy_names d).
Proof.
  intros Hnodup Hsub. split.
  - apply NoDup_fmap_2; [| exact Hnodup]. intros x y [= ->]. reflexivity.
  - intros dn x Hin. apply list_elem_of_fmap in Hin as (y & [= -> ->] & Hy).
    split; [reflexivity |].
    apply Hsub, elem_of_elements in Hy.
    unfold DimensionService.hierarchies_to_be_removed in Hy.
    apply elem_of_difference in Hy as [Hin Hout].
    rewrite elem_of_list_to_set in Hin. rewrite elem_of_list_to_set in Hout. auto.
Qed.

(** C3, as amended.  With [names] the hierarchy names listed by the
    server: no hierarchy is deleted twice; every hierarchy deleted is a
    hierarchy of the dimension itself whose name is listed by the server
    and is equal, as a string, to no hierarchy name of the given dimension;
    and every such name is deleted, unless a deletion raises, in which case
    that deletion is the last call and [update] raises its exception. *)
Theorem update_deletes_the_string_difference (d : Dimension.t) (w w1 : W)
    (names : list string) :
  hierarchies_get_all_names (Dimension.name d) w = (w1, Returned names) ->
  NoDup (deleted_hierarchies (trace (fst (run (DimensionService.update d) w)))) /\
  (forall dn x,
      (dn, x) ∈ deleted_hierarchies (trace (fst (run (DimensionService.update d) w))) ->
      dn = Dimension.name d /\ x ∈ names /\ x ∉ Dimension.hierarchy_names d) /\
  ((forall x,
       x ∈ names -> x ∉ Dimension.hierarchy_names d ->
       (Dimension.name d, x)
         ∈ deleted_hierarchies (trace (fst (run (DimensionService.update d) w)))) \/
   (exists h e,
       snd (run (DimensionService.update d) w) = Raised e /\
       last (trace (fst (run (DimensionService.update d) w)))
         = Some (HierDelete (Dimension.name d) h (Raised e)))).
Proof.
  intros Hlist.
  destruct (update_trace d w) as (_ & dels0 & ups0 & Hhead & _).
  rewrite Hlist in Hhead. simpl in Hhead.
  pose proof (NoDup_elements (DimensionService.hierarchies_to_be_removed names d))
    as Hnodup.
  destruct (update_cases d w)
    as [(e & _ & Htrace) | [(names' & before & h & after & e & Hsplit & Hout & Htrace)
                           | (names' & ups & Htrace & Hups & _)]];
    rewrite Htrace in Hhead |- *.
  - discriminate Hhead.
  - injection Hhead as -> _.
    change (HierGetAllNames ?n ?o :: ?l ++ [?x]) with ([HierGetAllNames n o] ++ l ++ [x]).
    rewrite !deleted_hierarchies_app, deleted_hierarchies_deletions. simpl.
    change [(Dimension.name d, h)] with (map (pair (Dimension.name d)) [h]).
    rewrite <- map_app.
    assert (NoDup (before ++ [h])) as Hnodup'.
    { rewrite Hsplit in Hnodup. apply NoDup_app in Hnodup as (Hb & Hdisj & Hh).
      apply NoDup_app. refine (conj Hb (conj _ _)).
      - intros x Hx Hx'. apply list_elem_of_singleton in Hx'. subst x.
        apply (Hdisj h Hx). left.
      - apply NoDup_singleton. }
    assert (forall x, x ∈ before ++ [h] ->
              x ∈ elements (DimensionService.hierarchies_to_be_removed names d)) as Hsub.
    { intros x Hx. rewrite Hsplit. apply elem_of_app in Hx as [Hx | Hx].
      - apply elem_of_app. auto.
      - apply list_elem_of_singleton in Hx. subst x. apply elem_of_app. right. left. }
    destruct (pairs_of_removed d names _ Hnodup' Hsub) as [Hnd Hsound].
    refine (conj Hnd (conj Hsound _)).
    right. exists h, e. split; [exact Hout |].
    match goal with
    | |- last (?g :: ?l ++ [?x]) = _ => change (last ((g :: l) ++ [x]) = Some x)
    end.
    apply last_snoc.
  - injection Hhead as -> _.
    change (HierGetAllNames ?n ?o :: ?l ++ ups) with ([HierGetAllNames n o] ++ l ++ ups).
    rewrite !deleted_hierarchies_app, deleted_hierarchies_deletions,
      (deleted_hierarchies_upserts _ Hups).
    simpl. rewrite app_nil_r.
    destruct (pairs_of_removed d names _ Hnodup (fun x Hx => Hx)) as [Hnd Hsound].
    refine (conj Hnd (conj Hsound _)).
    left. intros x Hin Hnot.
    apply list_elem_of_fmap. exists x. split; [reflexivity |].
    apply elem_of_elements. unfold DimensionService.hierarchies_to_be_removed.
    apply elem_of_difference. rewrite !elem_of_list_to_set. auto.
Qed.

(** C4. No update and no creation is issued by [update] for a hierarchy
    whose name compares equal to Leaves without regard to case and
    spaces. *)
Theorem update_never_touches_leaves (d : Dimension.t) (w : W) (h : Hierarchy.t)
    (out : outcome unit) :
  case_and_space_insensitive_equals (Hierarchy.name h) "Leaves" = true ->
  (HierUpdate h out ∉ trace (fst (run (DimensionService.update d) w))) /\
  (HierCreate h out ∉ trace (fst (run (DimensionService.update d) w))).
Proof.
  intros Hleaves.
  destruct (update_trace d w)
    as (done & dels & ups & Htrace & Hdels & _ & Hups & _).
  rewrite Htrace.
  assert (forall ev, ev ∈ dels ++ ups -> is_hier_delete ev = true \/ upsert_event ev)
    as Hkinds.
  { intros ev Hev. apply elem_of_app in Hev as [Hev | Hev].
    - left. rewrite Forall_forall in Hdels. auto.
    - right. rewrite Forall_forall in Hups. auto. }
  split; intros Hin; apply elem_of_cons in Hin as [Hin | Hin];
    try discriminate Hin;
    destruct (Hkinds _ Hin) as [Hdel | Hup]; simpl in *; congruence.
Qed.

(** C5.  The trace of [update] is the listing of the server's
    hierarchy names, then hierarchy deletions only, then events none of
    which is a deletion.  When [update] returns, these last events follow
    the hierarchies of the dimension in order: one named Leaves is passed
    over, every other one is probed and then updated if the probe
    answered true and created if it answered false. *)
Theorem update_deletes_then_upserts (d : Dimension.t) (w : W) :
  exists listing dels ups,
    trace (fst (run (DimensionService.update d) w)) =
      HierGetAllNames (Dimension.name d) listing :: dels ++ ups /\
    Forall (fun ev => is_hier_delete ev = true) dels /\
    Forall (fun ev => is_hier_delete ev = false) ups /\
    (snd (run (DimensionService.update d) w) = Returned tt ->
     upserts (Dimension.hierarchies d) ups).
Proof.
  destruct (update_trace d w)
    as (done & dels & ups & Htrace & Hdels & _ & Hups & Hplan).
  exists (snd (hierarchies_get_all_names (Dimension.name d) w)), dels, ups.
  refine (conj Htrace (conj Hdels (conj _ _))).
  - eapply Forall_impl; [exact Hups |].
    intros [] Hev; simpl in *; auto; contradiction.
  - intros Hret.
    destruct (snd (hierarchies_get_all_names (Dimension.name d) w)) as [e | names] eqn:Hl.
    + rewrite update_run in Hret.
      destruct (hierarchies_get_all_names (Dimension.name d) w) as [w1 o].
      simpl in Hl. subst o. discriminate Hret.
    + destruct (Hplan names eq_refl) as [_ Hall]. apply Hall. exact Hret.
Qed.
End Update.

(** *** update on the example server *)

(** The spellings of Leaves named by the specification. *)
Example leaves_spellings :
  case_and_space_insensitive_equals "leaves" "Leaves" = true /\
  case_and_space_insensitive_equals " Leaves " "Leaves" = true /\
  case_and_space_insensitive_equals "Region" "Leaves" = false.
Proof. repeat split. Qed.

(** On the example server, which lists Region and Leaves for a dimension
    that holds Region and Continent: Leaves is deleted, and nothing that is
    not listed or that the dimension holds. *)
Lemma update_deletes_the_string_difference_witness :
  NoDup (deleted_hierarchies
           (trace (fst (run (DimensionService.update Examples.region)
                            Examples.server_with_region)))) /\
  (forall dn x,
      (dn, x) ∈ deleted_hierarchies
                  (trace (fst (run (DimensionService.update Examples.region)
                                   Examples.server_with_region))) ->
      dn = "Region" /\ x ∈ ["Region"; "Leaves"] /\ x ∉ ["Region"; "Continent"]) /\
  ("Region", "Leaves")
    ∈ deleted_hierarchies
        (trace (fst (run (DimensionService.update Examples.region)
                         Examples.server_with_region))).
Proof.
  destruct (update_deletes_the_string_difference Examples.region
              Examples.server_with_region Examples.server_with_region
              ["Region"; "Leaves"])
    as (Hnodup & Hsound & [Hall | (h & e & Hraised & _)]).
  - reflexivity.
  - refine (conj Hnodup (conj Hsound _)).
    apply (Hall "Leaves").
    + repeat constructor.
    + intros Hin. apply list_elem_of_In in Hin. simpl in Hin.
      destruct Hin as [Hin | [Hin | []]]; discriminate Hin.
  - vm_compute in Hraised. discriminate Hraised.
Defined.

(** C3, as stated, fails: the server lists the hierarchy Region, the given
    dimension holds it under the spelling region.  No name is absent under
    the case- and space-insensitive comparison, yet Region is deleted. *)
Lemma update_deletes_a_respelled_hierarchy :
  snd (hierarchies_get_all_names "Region" Examples.server_one_hierarchy)
    = Returned ["Region"] /\
  Dimension.hierarchy_names Examples.region_lower = ["region"] /\
  spec_hierarchies_to_be_removed ["Region"] Examples.region_lower = [] /\
  deleted_hierarchies
    (trace (fst (run (DimensionService.update Examples.region_lower)
                     Examples.server_one_hierarchy)))
    = [("Region", "Region")].
Proof. vm_compute. repeat split. Qed.

Lemma update_never_touches_leaves_witness :
  (HierUpdate Examples.h_leaves_spaced (Returned tt)
     ∉ trace (fst (run (DimensionService.update Examples.region_with_spaced_leaves)
                       Examples.server_with_region))) /\
  (HierCreate Examples.h_leaves_spaced (Returned tt)
     ∉ trace (fst (run (DimensionService.update Examples.region_with_spaced_leaves)
                       Examples.server_with_region))).
Proof.
  apply (update_never_touches_leaves Examples.region_with_spaced_leaves
           Examples.server_with_region Examples.h_leaves_spaced (Returned tt)).
  reflexivity.
Defined.

Lemma update_deletes_then_upserts_witness :
  exists listing dels ups,
    trace (fst (run (DimensionService.update Examples.region)
                    Examples.server_with_region)) =
      HierGetAllNames "Region" listing :: dels ++ ups /\
    Forall (fun ev => is_hier_delete ev = true) dels /\
    Forall (fun ev => is_hier_delete ev = false) ups /\
    upserts (Dimension.hierarchies Examples.region) ups.
Proof.
  destruct (update_deletes_then_upserts Examples.region Examples.server_with_region)
    as (listing & dels & ups & Htrace & Hdels & Hups & Hshape).
  exists listing, dels, ups.
  refine (conj Htrace (conj Hdels (conj Hups _))).
  apply Hshape. reflexivity.
Defined.

(** ** Reading JSON answers *)

Section Comprehension.
Context {A B : Type} (f : A -> outcome B).

Lemma comprehension_Forall2 (l : list A) (ys : list B) :
  Forall2 (fun x y => f x = Returned y) l ys -> comprehension f l = Returned ys.
Proof.
  induction 1 as [| x y l ys Hx _ IH]; simpl; [reflexivity |].
  rewrite Hx. simpl. rewrite IH. reflexivity.
Qed.

Lemma comprehension_first_failure (before after : list A) (ys : list B) x e :
  Forall2 (fun x y => f x = Returned y) before ys ->
  f x = Raised e ->
  comprehension f (before ++ x :: after) = Raised e.
Proof.
  intros Hbefore Hx. induction Hbefore as [| x0 y l ys' Hx0 _ IH]; simpl.
  - rewrite Hx. reflexivity.
  - rewrite Hx0. simpl. rewrite IH. reflexivity.
Qed.

Lemma comprehension_raises (l : list A) x :
  x ∈ l -> raised (f x) = true -> raised (comprehension f l) = true.
Proof.
  intros Hin. induction Hin as [x l | x x0 l _ IH]; intros Hx; simpl.
  - destruct (f x); [reflexivity | discriminate Hx].
  - destruct (f x0); simpl; [reflexivity |].
    specialize (IH Hx).
    destruct (comprehension f l); [reflexivity | discriminate IH].
Qed.
End Comprehension.

Lemma first_member_name_of_row (row name : json) :
  row_with_name row name -> DimensionService.first_member_name row = Returned name.
Proof.
  intros (member & others & element & Hmembers & Helement & Hname).
  unfold DimensionService.first_member_name.
  rewrite Hmembers. simpl. rewrite Helement. simpl. exact Hname.
Qed.

Lemma first_member_name_no_member (row : json) :
  getitem "Members" row = Returned (JArr []) ->
  DimensionService.first_member_name row = Raised IndexError.
Proof.
  intros Hmembers. unfold DimensionService.first_member_name.
  rewrite Hmembers. reflexivity.
Qed.

Lemma rows_with_names (rows names : list json) :
  Forall2 row_with_name rows names ->
  Forall2 (fun row name => DimensionService.first_member_name row = Returned name)
          rows names.
Proof.
  intros Hrows. eapply Forall2_impl; [exact Hrows |].
  intros row name. apply first_member_name_of_row.
Qed.

(** ** get_all_names and execute_mdx *)

Section Queries.
Context {W : Type} `{!Collaborators W}.

(** C8. When the GET returns a response whose JSON body has an array
    under the key value, [get_all_names] makes that one GET and returns
    the Name entry of every item of the array, in the order of the
    array. *)
Theorem get_all_names_reads_the_value_array (w w' : W) (response : Response)
    (answer : json) (entries names : list json) :
  rest_GET "/api/v1/Dimensions?$select=Name" "" w = (w', Returned response) ->
  json_body response = Some answer ->
  getitem "value" answer = Returned (JArr entries) ->
  Forall2 (fun entry n => getitem "Name" entry = Returned n) entries names ->
  run DimensionService.get_all_names w =
    (State w' [RestGET "/api/v1/Dimensions?$select=Name" "" (Returned response)],
     Returned names).
Proof.
  intros Hget Hbody Hvalue Hentries.
  unfold run, DimensionService.get_all_names.
  erewrite bind_returned by (apply call_run; exact Hget).
  unfold lift, response_json. rewrite Hbody. simpl. rewrite Hvalue. simpl.
  rewrite (comprehension_Forall2 _ _ _ Hentries). reflexivity.
Qed.

(** What [execute_mdx] does once the answer has a first axis with an array
    of tuples: one POST, then the comprehension over the tuples. *)
Lemma execute_mdx_run (dimension_name mdx : string) (w w' : W) (response : Response)
    (answer axis : json) (more_axes rows : list json) :
  rest_POST DimensionService.execute_mdx_request
    (json_dumps (JObj [("MDX", JStr (DimensionService.mdx_skeleton_format
                                       mdx dimension_name dimension_name))])) w
    = (w', Returned response) ->
  json_body response = Some answer ->
  getitem "Axes" answer = Returned (JArr (axis :: more_axes)) ->
  getitem "Tuples" axis = Returned (JArr rows) ->
  run (DimensionService.execute_mdx dimension_name mdx) w =
    (State w' [RestPOST DimensionService.execute_mdx_request
                 (json_dumps (JObj [("MDX", JStr (DimensionService.mdx_skeleton_format
                                                    mdx dimension_name dimension_name))]))
                 (Returned response)],
     comprehension DimensionService.first_member_name rows).
Proof.
  intros Hpost Hbody Haxes Htuples.
  unfold run, DimensionService.execute_mdx.
  erewrite bind_returned by (apply call_run; exact Hpost).
  unfold lift, response_json, DimensionService.axis_element_names.
  rewrite Hbody. simpl obind. rewrite Haxes. simpl obind. rewrite Htuples.
  reflexivity.
Qed.

(** C6, as amended.  [execute_mdx] posts, to the ExecuteMDX request, the
    JSON object whose MDX entry is the statement
    SELECT mdx ON ROWS, { [}ElementAttributes_dim].DefaultMember } ON COLUMNS  FROM [}ElementAttributes_dim]
    and, when the answer has a first axis with an array of tuples, returns
    the element name of the first member of every tuple, in the order of
    the array. *)
Theorem execute_mdx_posts_and_reads (dimension_name mdx : string) (w w' : W)
    (response : Response) (answer axis : json) (more_axes rows names : list json) :
  rest_POST
    ("/api/v1/ExecuteMDX?$expand=Axes($filter=Ordinal eq 1;" +:+
     "$expand=Tuples($expand=Members($select=Ordinal;$expand=Element($select=Name))))")
    (json_dumps (JObj [("MDX",
       JStr ("SELECT " +:+ mdx +:+ " ON ROWS, { [}ElementAttributes_" +:+
             dimension_name +:+ "].DefaultMember } ON COLUMNS  FROM [}ElementAttributes_" +:+
             dimension_name +:+ "]"))])) w
    = (w', Returned response) ->
  json_body response = Some answer ->
  getitem "Axes" answer = Returned (JArr (axis :: more_axes)) ->
  getitem "Tuples" axis = Returned (JArr rows) ->
  Forall2 row_with_name rows names ->
  run (DimensionService.execute_mdx dimension_name mdx) w =
    (State w'
       [RestPOST
          ("/api/v1/ExecuteMDX?$expand=Axes($filter=Ordinal eq 1;" +:+
           "$expand=Tuples($expand=Members($select=Ordinal;$expand=Element($select=Name))))")
          (json_dumps (JObj [("MDX",
             JStr ("SELECT " +:+ mdx +:+ " ON ROWS, { [}ElementAttributes_" +:+
                   dimension_name +:+
                   "].DefaultMember } ON COLUMNS  FROM [}ElementAttributes_" +:+
                   dimension_name +:+ "]"))]))
          (Returned response)],
     Returned names).
Proof.
  intros Hpost Hbody Haxes Htuples Hrows.
  rewrite (execute_mdx_run _ _ _ _ _ _ _ _ _ Hpost Hbody Haxes Htuples).
  rewrite (comprehension_Forall2 _ _ _ (rows_with_names _ _ Hrows)).
  reflexivity.
Qed.

(** C10. Of every tuple of the first axis [execute_mdx] reads the first
    member only: the name returned for a tuple is the element name of its
    first member whatever members follow, one name per tuple.  A tuple
    whose member list is empty makes the call raise; the exception is
    [IndexError] when the tuples before it are well formed. *)
Theorem execute_mdx_reads_first_members (dimension_name mdx : string) (w w' : W)
    (response : Response) (answer axis : json) (more_axes rows : list json) :
  rest_POST DimensionService.execute_mdx_request
    (json_dumps (JObj [("MDX", JStr (DimensionService.mdx_skeleton_format
                                       mdx dimension_name dimension_name))])) w
    = (w', Returned response) ->
  json_body response = Some answer ->
  getitem "Axes" answer = Returned (JArr (axis :: more_axes)) ->
  getitem "Tuples" axis = Returned (JArr rows) ->
  (forall names,
      Forall2 row_with_name rows names ->
      snd (run (DimensionService.execute_mdx dimension_name mdx) w) = Returned names /\
      length names = length rows) /\
  (forall row,
      row ∈ rows ->
      getitem "Members" row = Returned (JArr []) ->
      raised (snd (run (DimensionService.execute_mdx dimension_name mdx) w)) = true) /\
  (forall before row after names,
      rows = before ++ row :: after ->
      Forall2 row_with_name before names ->
      getitem "Members" row = Returned (JArr []) ->
      snd (run (DimensionService.execute_mdx dimension_name mdx) w) = Raised IndexError).
Proof.
  intros Hpost Hbody Haxes Htuples.
  rewrite (execute_mdx_run _ _ _ _ _ _ _ _ _ Hpost Hbody Haxes Htuples). simpl.
  refine (conj _ (conj _ _)).
  - intros names Hrows. split.
    + apply comprehension_Forall2, rows_with_names, Hrows.
    + symmetry. eapply Forall2_length, Hrows.
  - intros row Hin Hmembers.
    apply (comprehension_raises _ _ row Hin).
    rewrite (first_member_name_no_member _ Hmembers). reflexivity.
  - intros before row after names -> Hbefore Hmembers.
    eapply comprehension_first_failure.
    + apply rows_with_names, Hbefore.
    + apply first_member_name_no_member, Hmembers.
Qed.
End Queries.

(** *** The queries on the example server *)

Lemma get_all_names_reads_the_value_array_witness :
  run DimensionService.get_all_names Examples.server_two_dimensions =
    (State Examples.server_two_dimensions
       [RestGET "/api/v1/Dimensions?$select=Name" ""
          (Returned {| json_body :=
             Some (JObj [("value", JArr [JObj [("Name", JStr "Region")];
                                         JObj [("Name", JStr "Product")]])]) |})],
     Returned [JStr "Region"; JStr "Product"]).
Proof.
  apply (get_all_names_reads_the_value_array
           Examples.server_two_dimensions Examples.server_two_dimensions
           {| json_body := Some (Mock.names_answer Examples.server_two_dimensions) |}
           (Mock.names_answer Examples.server_two_dimensions)
           [JObj [("Name", JStr "Region")]; JObj [("Name", JStr "Product")]]).
  - reflexivity.
  - reflexivity.
  - reflexivity.
  - repeat constructor.
Defined.

Lemma two_rows_names :
  Forall2 row_with_name
    [JObj [("Ordinal", JNum 0); ("Members", JArr [Examples.member 0 "Europe"])];
     JObj [("Ordinal", JNum 1);
           ("Members", JArr [Examples.member 0 "Asia"; Examples.member 1 "Japan"])]]
    [JStr "Europe"; JStr "Asia"].
Proof.
  constructor; [| constructor; [| constructor]].
  - exists (Examples.member 0 "Europe"), [], (JObj [("Name", JStr "Europe")]).
    split; [reflexivity | split; reflexivity].
  - exists (Examples.member 0 "Asia"), [Examples.member 1 "Japan"],
      (JObj [("Name", JStr "Asia")]).
    split; [reflexivity | split; reflexivity].
Qed.

Lemma execute_mdx_posts_and_reads_witness :
  snd (run (DimensionService.execute_mdx "Region" Examples.region_members)
           (Examples.server_answering Examples.two_rows))
    = Returned [JStr "Europe"; JStr "Asia"].
Proof.
  erewrite (execute_mdx_posts_and_reads "Region" Examples.region_members
              (Examples.server_answering Examples.two_rows)
              (Examples.server_answering Examples.two_rows)
              {| json_body := Some Examples.two_rows |} Examples.two_rows
              _ [] _ [JStr "Europe"; JStr "Asia"]).
  - reflexivity.
  - reflexivity.
  - reflexivity.
  - reflexivity.
  - reflexivity.
  - exact two_rows_names.
Defined.

(** C6, as stated, fails on the template: the statement that is posted is
    not the template printed in the specification. *)
Lemma execute_mdx_statement_is_not_the_printed_template :
  trace (fst (run (DimensionService.execute_mdx "Region" Examples.region_members)
                  (Examples.server_answering Examples.two_rows))) =
    [RestPOST DimensionService.execute_mdx_request
       (json_dumps (JObj [("MDX",
          JStr ("SELECT {[Region].[Europe], [Region].[Asia]} ON ROWS, " +:+
                "{ [}ElementAttributes_Region].DefaultMember } ON COLUMNS  " +:+
                "FROM [}ElementAttributes_Region]"))]))
       (Returned {| json_body := Some Examples.two_rows |})] /\
  spec_mdx_template Examples.region_members "Region" =
    "SELECT {[Region].[Europe], [Region].[Asia]} ON ROWS, " +:+
    "{}ElementAttributes_Region].DefaultMember} ON COLUMNS " +:+
    "FROM []ElementAttributes_Region]" /\
  DimensionService.mdx_skeleton_format Examples.region_members "Region" "Region"
    <> spec_mdx_template Examples.region_members "Region".
Proof.
  split; [reflexivity |]. split; [reflexivity |].
  vm_compute. discriminate.
Qed.

Lemma execute_mdx_reads_first_members_witness :
  snd (run (DimensionService.execute_mdx "Region" Examples.region_members)
           (Examples.server_answering Examples.two_rows))
    = Returned [JStr "Europe"; JStr "Asia"] /\
  snd (run (DimensionService.execute_mdx "Region" Examples.region_members)
           (Examples.server_answering Examples.empty_row))
    = Raised IndexError.
Proof.
  split.
  - destruct (execute_mdx_reads_first_members "Region" Examples.region_members
                (Examples.server_answering Examples.two_rows)
                (Examples.server_answering Examples.two_rows)
                {| json_body := Some Examples.two_rows |} Examples.two_rows
                (JObj [("Ordinal", JNum 1);
                       ("Tuples", JArr [JObj [("Ordinal", JNum 0);
                                              ("Members", JArr [Examples.member 0 "Europe"])];
                                        JObj [("Ordinal", JNum 1);
                                              ("Members", JArr [Examples.member 0 "Asia";
                                                                Examples.member 1 "Japan"])]])])
                []
                [JObj [("Ordinal", JNum 0); ("Members", JArr [Examples.member 0 "Europe"])];
                 JObj [("Ordinal", JNum 1);
                       ("Members", JArr [Examples.member 0 "Asia";
                                         Examples.member 1 "Japan"])]])
      as (Hfirst & _ & _).
    + reflexivity.
    + reflexivity.
    + reflexivity.
    + reflexivity.
    + apply Hfirst. exact two_rows_names.
  - destruct (execute_mdx_reads_first_members "Region" Examples.region_members
                (Examples.server_answering Examples.empty_row)
                (Examples.server_answering Examples.empty_row)
                {| json_body := Some Examples.empty_row |} Examples.empty_row
                (JObj [("Ordinal", JNum 1);
                       ("Tuples", JArr [JObj [("Ordinal", JNum 0);
                                              ("Members", JArr [Examples.member 0 "Europe"])];
                                        JObj [("Ordinal", JNum 1);
                                              ("Members", JArr [])]])])
                []
                [JObj [("Ordinal", JNum 0); ("Members", JArr [Examples.member 0 "Europe"])];
                 JObj [("Ordinal", JNum 1); ("Members", JArr [])]])
      as (_ & _ & Hempty).
    + reflexivity.
    + reflexivity.
    + reflexivity.
    + reflexivity.
    + apply (Hempty
               [JObj [("Ordinal", JNum 0); ("Members", JArr [Examples.member 0 "Europe"])]]
               (JObj [("Ordinal", JNum 1); ("Members", JArr [])])
               [] [JStr "Europe"]).
      * reflexivity.
      * constructor; [| constructor].
        exists (Examples.member 0 "Europe"), [], (JObj [("Name", JStr "Europe")]).
        split; [reflexivity | split; reflexivity].
      * reflexivity.
Defined.

(** ** create_element_attributes_through_ti *)

Lemma attr_insert_untyped (d : Dimension.t) (attributes : list ElementAttribute.t) :
  Exists (fun ea => ElementAttribute.attribute_type ea = EmptyString) attributes ->
  comprehension (DimensionService.attr_insert d) attributes = Raised IndexError.
Proof.
  induction 1 as [ea attributes Hea | ea attributes _ IH]; simpl.
  - unfold DimensionService.attr_insert. rewrite Hea. reflexivity.
  - rewrite IH. unfold DimensionService.attr_insert.
    destruct (ElementAttribute.attribute_type ea); reflexivity.
Qed.

Section Attributes.
Context {W : Type} `{!Collaborators W}.

Lemma attr_insert_statements (d : Dimension.t) (attributes : list ElementAttribute.t) :
  Forall (fun ea => ElementAttribute.attribute_type ea <> EmptyString) attributes ->
  comprehension (DimensionService.attr_insert d) attributes =
    Returned (map (fun ea =>
                "AttrInsert('" +:+ Dimension.name d +:+ "', '', '" +:+
                ElementAttribute.name ea +:+ "', '" +:+
                head_char (ElementAttribute.attribute_type ea) +:+ "');")
                attributes).
Proof.
  induction 1 as [| ea attributes Hea _ IH]; simpl; [reflexivity |].
  rewrite IH. unfold DimensionService.attr_insert.
  destruct (ElementAttribute.attribute_type ea); [contradiction |]. reflexivity.
Qed.

Lemma ti_loop (d : Dimension.t) (hs : list Hierarchy.t) (s : state W) :
  ti_never_raises ->
  Forall (fun h => Forall (fun ea => ElementAttribute.attribute_type ea <> EmptyString)
                          (Hierarchy.element_attributes h)) hs ->
  exists w',
    for_each hs (fun h =>
      statements <- lift (comprehension (DimensionService.attr_insert d)
                                        (Hierarchy.element_attributes h)) ;;
      call (execute_ti_code statements) (ExecuteTiCode statements)) s =
    (State w'
       (trace s ++
        map (fun h =>
               ExecuteTiCode
                 (map (fun ea =>
                    "AttrInsert('" +:+ Dimension.name d +:+ "', '', '" +:+
                    ElementAttribute.name ea +:+ "', '" +:+
                    head_char (ElementAttribute.attribute_type ea) +:+ "');")
                    (Hierarchy.element_attributes h))
                 (Returned tt)) hs),
     Returned tt).
Proof.
  intros Hti Htags. revert s.
  induction Htags as [| h hs Hh _ IH]; intros s; simpl.
  - exists (world s). rewrite app_nil_r. destruct s. reflexivity.
  - unfold bind at 1. unfold bind at 1. unfold lift at 1.
    rewrite (attr_insert_statements d _ Hh). unfold call at 1.
    pose proof (Hti (map (fun ea =>
                    "AttrInsert('" +:+ Dimension.name d +:+ "', '', '" +:+
                    ElementAttribute.name ea +:+ "', '" +:+
                    head_char (ElementAttribute.attribute_type ea) +:+ "');")
                    (Hierarchy.element_attributes h)) (world s)) as Hcall.
    destruct (execute_ti_code _ (world s)) as [w1 o]. simpl in Hcall. subst o.
    match goal with
    | |- context [for_each hs _ ?s1] => destruct (IH s1) as [w' Hrest]
    end.
    exists w'. rewrite Hrest. simpl. rewrite <- app_assoc. reflexivity.
Qed.

Lemma typed_or_untyped (h : Hierarchy.t) :
  typed h \/
  Exists (fun ea => ElementAttribute.attribute_type ea = EmptyString)
         (Hierarchy.element_attributes h).
Proof.
  unfold typed. induction (Hierarchy.element_attributes h) as [| ea l IH].
  - left. constructor.
  - destruct (ElementAttribute.attribute_type ea) eqn:Htag.
    + right. constructor. exact Htag.
    + destruct IH as [IH | IH].
      * left. constructor; [rewrite Htag; discriminate | exact IH].
      * right. apply Exists_cons_tl. exact IH.
Qed.

(** The three ways the loop can run: to the end; up to a hierarchy with an
    attribute of empty type; up to a script execution that raises. *)
Lemma ti_loop_cases (d : Dimension.t) (hs : list Hierarchy.t) (s s' : state W)
    (out : outcome unit) :
  for_each hs (fun h =>
    statements <- lift (comprehension (DimensionService.attr_insert d)
                                      (Hierarchy.element_attributes h)) ;;
    call (execute_ti_code statements) (ExecuteTiCode statements)) s = (s', out) ->
  (out = Returned tt /\ Forall typed hs /\
   trace s' = trace s ++
     map (fun h => ExecuteTiCode (map (attr_insert_text d) (Hierarchy.element_attributes h))
                                 (Returned tt)) hs) \/
  (exists before h after,
      hs = before ++ h :: after /\ Forall typed before /\
      Exists (fun ea => ElementAttribute.attribute_type ea = EmptyString)
             (Hierarchy.element_attributes h) /\
      out = Raised IndexError /\
      trace s' = trace s ++
        map (fun h => ExecuteTiCode (map (attr_insert_text d) (Hierarchy.element_attributes h))
                                    (Returned tt)) before) \/
  (exists before h after e,
      hs = before ++ h :: after /\ Forall typed before /\ typed h /\
      out = Raised e /\
      trace s' = trace s ++
        map (fun h => ExecuteTiCode (map (attr_insert_text d) (Hierarchy.element_attributes h))
                                    (Returned tt)) before ++
        [ExecuteTiCode (map (attr_insert_text d) (Hierarchy.element_attributes h))
                       (Raised e)]).
Proof.
  revert s. induction hs as [| h hs IH]; intros s; simpl.
  - intros [= <- <-]. left. rewrite app_nil_r. auto.
  - unfold bind at 1. unfold bind at 1. unfold lift at 1.
    destruct (typed_or_untyped h) as [Hh | Hh].
    + rewrite (attr_insert_statements d _ Hh).
      change (map _ (Hierarchy.element_attributes h))
        with (map (attr_insert_text d) (Hierarchy.element_attributes h)).
      unfold call at 1.
      destruct (execute_ti_code _ (world s)) as [w1 [e | []]]; simpl.
      * intros [= <- <-]. right. right. exists [], h, hs, e. simpl. auto.
      * intros Hrest.
        destruct (IH _ Hrest)
          as [(-> & Htyped & Htrace)
             | [(before & h' & after & -> & Hbefore & Hh' & -> & Htrace)
               | (before & h' & after & e & -> & Hbefore & Hh' & -> & Htrace)]];
          simpl in Htrace.
        -- left. refine (conj eq_refl (conj _ _)); [constructor; auto |].
           rewrite Htrace, <- app_assoc. reflexivity.
        -- right. left. exists (h :: before), h', after.
           refine (conj eq_refl (conj _ (conj Hh' (conj eq_refl _))));
             [constructor; auto |].
           rewrite Htrace, <- app_assoc. reflexivity.
        -- right. right. exists (h :: before), h', after, e.
           refine (conj eq_refl (conj _ (conj Hh' (conj eq_refl _))));
             [constructor; auto |].
           rewrite Htrace, <- !app_assoc. reflexivity.
    + rewrite (attr_insert_untyped d _ Hh). simpl.
      intros [= <- <-]. right. left. exists [], h, hs. simpl.
      rewrite app_nil_r. auto.
Qed.

(** C7, as amended.  [create_element_attributes_through_ti] goes through
    the hierarchies of the dimension in order and, for each one, builds one
    AttrInsert statement per element attribute, from the dimension name,
    the attribute name and the first character of the attribute type, and
    submits the statements of that hierarchy as one script execution: one
    execution per hierarchy.  Every run is of one of three kinds.  Either
    it returns: no attribute type is empty and every hierarchy has had its
    execution, which returned.  Or it raises [IndexError] at the first
    hierarchy that has an attribute of empty type: the hierarchies before
    it have had their executions, and nothing is submitted for it or after
    it.  Or a script execution raises: it is the last call, the hierarchies
    before it have had theirs, and the method raises its exception. *)
Theorem attributes_one_batch_per_hierarchy (d : Dimension.t) (w : W) :
  (snd (run (DimensionService.create_element_attributes_through_ti d) w) = Returned tt /\
   Forall typed (Dimension.hierarchies d) /\
   trace (fst (run (DimensionService.create_element_attributes_through_ti d) w)) =
     map (fun h => ExecuteTiCode (map (attr_insert_text d) (Hierarchy.element_attributes h))
                                 (Returned tt))
         (Dimension.hierarchies d)) \/
  (exists before h after,
      Dimension.hierarchies d = before ++ h :: after /\
      Forall typed before /\
      Exists (fun ea => ElementAttribute.attribute_type ea = EmptyString)
             (Hierarchy.element_attributes h) /\
      snd (run (DimensionService.create_element_attributes_through_ti d) w)
        = Raised IndexError /\
      trace (fst (run (DimensionService.create_element_attributes_through_ti d) w)) =
        map (fun h => ExecuteTiCode (map (attr_insert_text d) (Hierarchy.element_attributes h))
                                    (Returned tt))
            before) \/
  (exists before h after e,
      Dimension.hierarchies d = before ++ h :: after /\
      Forall typed before /\ typed h /\
      snd (run (DimensionService.create_element_attributes_through_ti d) w) = Raised e /\
      trace (fst (run (DimensionService.create_element_attributes_through_ti d) w)) =
        map (fun h => ExecuteTiCode (map (attr_insert_text d) (Hierarchy.element_attributes h))
                                    (Returned tt))
            before ++
        [ExecuteTiCode (map (attr_insert_text d) (Hierarchy.element_attributes h))
                       (Raised e)]).
Proof.
  unfold run, DimensionService.create_element_attributes_through_ti.
  destruct (for_each _ _ _) as [s' out] eqn:Hrun.
  destruct (ti_loop_cases d _ _ _ _ Hrun)
    as [(-> & Htyped & Htrace)
       | [(before & h & after & Hsplit & Hbefore & Hh & -> & Htrace)
         | (before & h & after & e & Hsplit & Hbefore & Hh & -> & Htrace)]];
    simpl in *.
  - left. auto.
  - right. left. exists before, h, after. auto.
  - right. right. exists before, h, after, e. auto.
Qed.
End Attributes.

Lemma mock_ti_never_raises : ti_never_raises (W := Mock.t).
Proof. intros lines w. reflexivity. Qed.

Lemma attributes_one_batch_per_hierarchy_witness :
  snd (run (DimensionService.create_element_attributes_through_ti Examples.region)
           Examples.server_with_region) = Returned tt /\
  trace (fst (run (DimensionService.create_element_attributes_through_ti Examples.region)
                  Examples.server_with_region)) =
    [ExecuteTiCode ["AttrInsert('Region', '', 'Population', 'N');";
                    "AttrInsert('Region', '', 'Capital', 'S');"] (Returned tt);
     ExecuteTiCode ["AttrInsert('Region', '', 'Code', 'A');"] (Returned tt)].
Proof.
  destruct (attributes_one_batch_per_hierarchy Examples.region Examples.server_with_region)
    as [(Hret & _ & Htrace)
       | [(before & h & after & _ & _ & _ & Hraised & _)
         | (before & h & after & e & _ & _ & _ & Hraised & _)]].
  - split; [exact Hret | exact Htrace].
  - vm_compute in Hraised. discriminate Hraised.
  - vm_compute in Hraised. discriminate Hraised.
Defined.

(** C7, as stated, fails: for a dimension with two hierarchies the
    statements are submitted in two script executions, not in one. *)
Lemma attributes_are_submitted_per_hierarchy :
  ti_batches
    (trace (fst (run (DimensionService.create_element_attributes_through_ti Examples.region)
                     Examples.server_with_region))) =
    [["AttrInsert('Region', '', 'Population', 'N');";
      "AttrInsert('Region', '', 'Capital', 'S');"];
     ["AttrInsert('Region', '', 'Code', 'A');"]].
Proof. vm_compute. reflexivity. Qed.

(** * Further properties *)

(** ** create, in full *)




Section CreateMore.
Context {W : Type} `{!Collaborators W}.

Lemma emits_try {A} (P : event -> Prop) (body : M W A) (handler : exn -> M W A) :
  emits P body -> (forall e, emits P (handler e)) ->
  emits P (try_except_TM1pyException body handler).
Proof.
  intros Hbody Hhandler s. unfold try_except_TM1pyException.
  destruct (Hbody s) as (t & Ht & HPt).
  destruct (body s) as [s' [e | a]]; simpl in *; [| exists t; auto].
  destruct (is_TM1pyException e); [| exists t; auto].
  destruct (Hhandler e s') as (t' & Ht' & HPt').
  exists (t ++ t'). split.
  - rewrite Ht', Ht. symmetry. apply app_assoc.
  - apply Forall_app. auto.
Qed.

Lemma create_undo_emits (d : Dimension.t) (e : exn) :
  emits (fun ev => is_undo_event ev = true) (DimensionService.create_undo (W := W) d e).
Proof.
  unfold DimensionService.create_undo.
  apply emits_bind; [apply emits_call; reflexivity |].
  intros b. apply emits_bind; [| intros; apply emits_raise].
  apply emits_when. apply emits_bind; [apply emits_call; reflexivity |].
  intros; apply emits_ret.
Qed.

Lemma create_run (d : Dimension.t) (w : W) :
  run (DimensionService.create d) w =
    match object_exists ("/api/v1/Dimensions('" +:+ Dimension.name d +:+ "')") w with
    | (w1, Raised e) =>
        (State w1 [ObjectExists ("/api/v1/Dimensions('" +:+ Dimension.name d +:+ "')")
                                (Raised e)], Raised e)
    | (w1, Returned true) =>
        (State w1 [ObjectExists ("/api/v1/Dimensions('" +:+ Dimension.name d +:+ "')")
                                (Returned true)],
         Raised (Exception_ "Dimension already exists"))
    | (w1, Returned false) =>
        try_except_TM1pyException (DimensionService.create_steps d)
          (DimensionService.create_undo d)
          (State w1 [ObjectExists ("/api/v1/Dimensions('" +:+ Dimension.name d +:+ "')")
                                  (Returned false)])
    end.
Proof.
  unfold run, DimensionService.create, DimensionService.exists_.
  unfold bind at 1. unfold call at 1. simpl.
  destruct (object_exists _ w) as [w1 [e | [|]]]; reflexivity.
Qed.




(** X2. [create] changes the server only after the probe has answered
    false: if any POST, hierarchy update or DELETE is in its trace, the
    trace begins with the probe of the dimension, answered false. *)
Theorem create_mutates_only_after_a_negative_probe (d : Dimension.t) (w : W) (ev : event) :
  ev ∈ trace (fst (run (DimensionService.create d) w)) ->
  is_mutation ev = true ->
  exists rest,
    trace (fst (run (DimensionService.create d) w)) =
      ObjectExists ("/api/v1/Dimensions('" +:+ Dimension.name d +:+ "')") (Returned false)
      :: rest.
Proof.
  rewrite create_run.
  destruct (object_exists _ w) as [w1 [e | [|]]]; simpl.
  - intros Hin Hmut. apply list_elem_of_singleton in Hin. subst ev. discriminate Hmut.
  - intros Hin Hmut. apply list_elem_of_singleton in Hin. subst ev. discriminate Hmut.
  - intros _ _.
    destruct (emits_try (fun _ => True) (DimensionService.create_steps d)
                (DimensionService.create_undo d)) with
      (s := State w1 [ObjectExists ("/api/v1/Dimensions('" +:+ Dimension.name d +:+ "')")
                                   (Returned false)]) as (t & Ht & _).
    + eapply emits_weaken; [| apply create_steps_emits]. auto.
    + intros e. eapply emits_weaken; [| apply create_undo_emits]. auto.
    + exists t. exact Ht.
Qed.


(** X1. Whenever [create] returns, the probe has answered false, the value
    returned is the response of the POST, and the calls are the probe, the
    POST, and one returned update for every hierarchy that has at least one
    element attribute, in the order of the dimension; a hierarchy without
    element attributes is not updated. *)
Theorem create_returns_the_post_response (d : Dimension.t) (w : W) (s' : state W)
    (r : Response) :
  run (DimensionService.create d) w = (s', Returned r) ->
  trace s' =
    ObjectExists ("/api/v1/Dimensions('" +:+ Dimension.name d +:+ "')") (Returned false)
    :: RestPOST "/api/v1/Dimensions" (Dimension.body d) (Returned r)
    :: map (fun h => HierUpdate h (Returned tt))
           (List.filter has_attributes (Dimension.hierarchies d)).
Proof.
  assert (forall hs (s s2 : state W),
            for_each hs (fun hierarchy =>
              when (Nat.ltb 0 (length (Hierarchy.element_attributes hierarchy)))
                   (call (hierarchies_update hierarchy) (HierUpdate hierarchy))) s =
            (s2, Returned tt) ->
            trace s2 = trace s ++ map (fun h => HierUpdate h (Returned tt))
                                      (List.filter has_attributes hs)) as Hloop.
  { induction hs as [| h hs IH]; intros s s2; simpl.
    - intros [= <-]. symmetry. apply app_nil_r.
    - unfold bind at 1.
      change (Nat.ltb 0 (length (Hierarchy.element_attributes h))) with (has_attributes h).
      destruct (has_attributes h); simpl.
      + unfold call at 1.
        destruct (hierarchies_update h (world s)) as [w3 [e | []]]; simpl;
          [discriminate |].
        intros Hrest. rewrite (IH _ _ Hrest). simpl. rewrite <- app_assoc. reflexivity.
      + apply IH. }
  rewrite create_run.
  destruct (object_exists _ w) as [w1 [e | [|]]]; try discriminate.
  unfold try_except_TM1pyException.
  destruct (DimensionService.create_steps d _) as [s2 [e | r2]] eqn:Hsteps.
  - destruct (is_TM1pyException e); [| discriminate].
    unfold DimensionService.create_undo.
    unfold bind at 1. destruct (DimensionService.exists_ _ s2) as [s3 [e3 | b]];
      [discriminate |].
    unfold bind at 1. destruct (when b _ s3) as [s4 [e4 | []]]; discriminate.
  - intros [= <- <-]. revert Hsteps.
    unfold DimensionService.create_steps. unfold bind at 1. unfold call at 1. simpl.
    destruct (rest_POST _ _ w1) as [w2 [e | response]]; simpl; [discriminate |].
    unfold bind at 1.
    destruct (for_each _ _ _) as [s3 [e | []]] eqn:Hrun; simpl; [discriminate |].
    intros [= <- <-]. rewrite (Hloop _ _ _ Hrun). reflexivity.
Qed.

(** X4. When the [try] block raises a [TM1pyException], the probe of the
    handler answers true and the compensating DELETE raises, [create]
    raises the exception of the DELETE; the original exception is lost. *)
Theorem create_raises_the_delete_failure (d : Dimension.t) (w : W)
    (s1 s2 s3 s4 : state W) (r : string) (e' : exn) :
  run (DimensionService.exists_ (Dimension.name d)) w = (s1, Returned false) ->
  DimensionService.create_steps d s1 = (s2, Raised (TM1pyException r)) ->
  DimensionService.exists_ (Dimension.name d) s2 = (s3, Returned true) ->
  DimensionService.delete (Dimension.name d) s3 = (s4, Raised e') ->
  run (DimensionService.create d) w = (s4, Raised e').
Proof.
  intros Hprobe Hsteps Hagain Hdelete.
  unfold run, DimensionService.create.
  erewrite bind_returned by exact Hprobe.
  unfold try_except_TM1pyException. rewrite Hsteps. simpl.
  unfold DimensionService.create_undo.
  erewrite bind_returned by exact Hagain. simpl.
  erewrite bind_raised; [reflexivity |].
  erewrite bind_raised; [reflexivity | exact Hdelete].
Qed.
End CreateMore.

(** *** create, in full, on the example server *)

Lemma create_returns_the_post_response_witness :
  trace (fst (run (DimensionService.create Examples.region_with_leaves) Mock.empty)) =
    [ObjectExists "/api/v1/Dimensions('Region')" (Returned false);
     RestPOST "/api/v1/Dimensions" (Mock.body_of "Region")
              (Returned {| json_body := None |});
     HierUpdate Examples.h_region (Returned tt)].
Proof.
  apply (create_returns_the_post_response Examples.region_with_leaves Mock.empty
           (fst (run (DimensionService.create Examples.region_with_leaves) Mock.empty))
           {| json_body := None |}).
  reflexivity.
Defined.

Lemma create_mutates_only_after_a_negative_probe_witness :
  exists rest,
    trace (fst (run (DimensionService.create Examples.region)
                    (Examples.server_failing_update ConnectionError))) =
      ObjectExists "/api/v1/Dimensions('Region')" (Returned false) :: rest.
Proof.
  apply (create_mutates_only_after_a_negative_probe Examples.region
           (Examples.server_failing_update ConnectionError)
           (HierUpdate Examples.h_continent (Raised ConnectionError))).
  - vm_compute. repeat constructor.
  - reflexivity.
Defined.

Lemma create_raises_the_delete_failure_witness :
  snd (run (DimensionService.create Examples.region)
           (Examples.server_failing_update_and_delete
              (TM1pyException "500") (TM1pyException "503")))
    = Raised (TM1pyException "503").
Proof.
  erewrite (create_raises_the_delete_failure Examples.region
              (Examples.server_failing_update_and_delete
                 (TM1pyException "500") (TM1pyException "503"))
              _ _ _ _ "500" (TM1pyException "503")).
  - reflexivity.
  - reflexivity.
  - reflexivity.
  - reflexivity.
  - reflexivity.
Defined.

(** ** update, in full *)

Section UpdateMore.
Context {W : Type} `{!Collaborators W}.

(** X6. [update] starts probing, updating or creating hierarchies only
    after the listing and every deletion have returned: if a probe, an
    update or a creation is in the trace, the trace is the returned listing,
    then one returned deletion for each name to be removed (each name
    listed by the server that is, as a string, no hierarchy name of the
    dimension, once, in some order), then calls none of which is a
    deletion. *)
Theorem update_upserts_only_after_deletions (d : Dimension.t) (w : W) (ev : event) :
  ev ∈ trace (fst (run (DimensionService.update d) w)) ->
  is_upsert_step ev = true ->
  exists names removed ups,
    trace (fst (run (DimensionService.update d) w)) =
      HierGetAllNames (Dimension.name d) (Returned names)
      :: map (fun h => HierDelete (Dimension.name d) h (Returned tt)) removed
      ++ ups /\
    NoDup removed /\
    (forall x, x ∈ removed <-> x ∈ names /\ x ∉ Dimension.hierarchy_names d) /\
    Forall (fun ev => is_hier_delete ev = false) ups.
Proof.
  intros Hin Hstep.
  destruct (update_cases d w)
    as [(e & _ & Htrace) | [(names & before & h & after & e & _ & _ & Htrace)
                           | (names & ups & Htrace & Hups & _)]].
  - rewrite Htrace in Hin. apply list_elem_of_singleton in Hin. subst ev. discriminate.
  - rewrite Htrace in Hin. exfalso.
    apply elem_of_cons in Hin as [-> | Hin]; [discriminate |].
    apply elem_of_app in Hin as [Hin | Hin].
    + apply list_elem_of_fmap in Hin as (x & -> & _). discriminate.
    + apply list_elem_of_singleton in Hin. subst ev. discriminate.
  - exists names, (elements (DimensionService.hierarchies_to_be_removed names d)), ups.
    refine (conj Htrace (conj (NoDup_elements _) (conj _ _))).
    + intros x. rewrite elem_of_elements.
      unfold DimensionService.hierarchies_to_be_removed.
      rewrite elem_of_difference, !elem_of_list_to_set. reflexivity.
    + eapply Forall_impl; [exact Hups |].
      intros [] Hev; simpl in *; auto; contradiction.
Qed.

(** X7. A deletion that raises ends [update]: it is the last call of the
    trace and [update] raises its exception, so that no hierarchy is
    probed, updated or created afterwards. *)
Theorem update_failed_deletion_is_last (d : Dimension.t) (w : W)
    (dn hn : string) (e : exn) :
  HierDelete dn hn (Raised e) ∈ trace (fst (run (DimensionService.update d) w)) ->
  snd (run (DimensionService.update d) w) = Raised e /\
  last (trace (fst (run (DimensionService.update d) w)))
    = Some (HierDelete dn hn (Raised e)).
Proof.
  intros Hin.
  destruct (update_cases d w)
    as [(e' & _ & Htrace) | [(names & before & h & after & e' & _ & Hout & Htrace)
                            | (names & ups & Htrace & Hups & _)]];
    rewrite Htrace in Hin |- *.
  - apply list_elem_of_singleton in Hin. discriminate.
  - apply elem_of_cons in Hin as [Hin | Hin]; [discriminate |].
    apply elem_of_app in Hin as [Hin | Hin].
    + apply list_elem_of_fmap in Hin as (x & Hx & _). discriminate.
    + apply list_elem_of_singleton in Hin. injection Hin as -> -> ->.
      split; [exact Hout |].
      change (HierGetAllNames ?n ?o :: ?l ++ [?x]) with ((HierGetAllNames n o :: l) ++ [x]).
      apply last_snoc.
  - exfalso. apply elem_of_cons in Hin as [Hin | Hin]; [discriminate |].
    apply elem_of_app in Hin as [Hin | Hin].
    + apply list_elem_of_fmap in Hin as (x & Hx & _). discriminate.
    + rewrite Forall_forall in Hups. exact (Hups _ Hin).
Qed.

(** X8. When every name listed by the server is, as a string, a hierarchy
    name of the given dimension, [update] deletes nothing. *)
Theorem update_nothing_to_delete (d : Dimension.t) (w w1 : W) (names : list string) :
  hierarchies_get_all_names (Dimension.name d) w = (w1, Returned names) ->
  (forall x, x ∈ names -> x ∈ Dimension.hierarchy_names d) ->
  deleted_hierarchies (trace (fst (run (DimensionService.update d) w))) = [].
Proof.
  intros Hlist Hcovered.
  destruct (update_trace d w)
    as (done & dels & ups & Htrace & Hdels & Hnames & Hups & Hplan).
  rewrite Hlist in Hplan. simpl in Hplan.
  destruct (Hplan names eq_refl) as [Hprefix _].
  assert (DimensionService.hierarchies_to_be_removed names d = ∅) as Hempty.
  { unfold DimensionService.hierarchies_to_be_removed.
    apply set_eq. intros x. rewrite elem_of_difference, !elem_of_list_to_set.
    split; [intros [Hx Hnot]; destruct Hnot; auto | intros Hx; set_solver]. }
  rewrite Hempty, elements_empty in Hprefix.
  apply prefix_nil_inv in Hprefix. subst done.
  rewrite Htrace.
  change (HierGetAllNames ?n ?o :: dels ++ ups)
    with ([HierGetAllNames n o] ++ dels ++ ups).
  rewrite !deleted_hierarchies_app, (deleted_hierarchies_upserts _ Hups), Hnames.
  reflexivity.
Qed.

(** X9. The guard on the name Leaves protects updates and creations, not
    deletions: when the server lists a hierarchy called Leaves, the given
    dimension holds no hierarchy of exactly that name and [update] returns,
    the hierarchy Leaves of the dimension has been deleted. *)
Theorem update_deletes_an_omitted_leaves (d : Dimension.t) (w w1 : W)
    (names : list string) :
  hierarchies_get_all_names (Dimension.name d) w = (w1, Returned names) ->
  "Leaves" ∈ names ->
  "Leaves" ∉ Dimension.hierarchy_names d ->
  snd (run (DimensionService.update d) w) = Returned tt ->
  (Dimension.name d, "Leaves")
    ∈ deleted_hierarchies (trace (fst (run (DimensionService.update d) w))).
Proof.
  intros Hlist Hin Hout Hret.
  destruct (update_trace d w)
    as (done & dels & ups & Htrace & Hdels & Hnames & Hups & Hplan).
  rewrite Hlist in Hplan. simpl in Hplan.
  destruct (Hplan names eq_refl) as [_ Hall]. destruct (Hall Hret) as [-> _].
  rewrite Htrace.
  change (HierGetAllNames ?n ?o :: dels ++ ups)
    with ([HierGetAllNames n o] ++ dels ++ ups).
  rewrite !deleted_hierarchies_app, (deleted_hierarchies_upserts _ Hups), Hnames.
  simpl. rewrite app_nil_r.
  apply list_elem_of_fmap. exists "Leaves". split; [reflexivity |].
  apply elem_of_elements. unfold DimensionService.hierarchies_to_be_removed.
  apply elem_of_difference. rewrite !elem_of_list_to_set. auto.
Qed.

(** X10. Every call of [update] is about the given dimension: the listing
    and the deletions are keyed by its name, every probe by the dimension
    name and the name of one of its hierarchies, every update and creation
    carries one of its hierarchies; no other kind of call is made. *)
Theorem update_calls_are_about_the_dimension (d : Dimension.t) (w : W) :
  Forall (about_dimension d) (trace (fst (run (DimensionService.update d) w))).
Proof.
  destruct (update_cases d w)
    as [(e & _ & Htrace) | [(names & before & h & after & e & _ & _ & Htrace)
                           | (names & ups & Htrace & _ & Habout)]];
    rewrite Htrace.
  - repeat constructor.
  - constructor; [reflexivity |]. apply Forall_app. split.
    + apply Forall_forall. intros ev Hev.
      apply list_elem_of_fmap in Hev as (x & -> & _). reflexivity.
    + repeat constructor.
  - constructor; [reflexivity |]. apply Forall_app. split; [| exact Habout].
    apply Forall_forall. intros ev Hev.
    apply list_elem_of_fmap in Hev as (x & -> & _). reflexivity.
Qed.
End UpdateMore.

(** *** update, in full, on the example server *)

Lemma update_upserts_only_after_deletions_witness :
  exists names removed ups,
    trace (fst (run (DimensionService.update Examples.region)
                    Examples.server_with_region)) =
      HierGetAllNames "Region" (Returned names)
      :: map (fun h => HierDelete "Region" h (Returned tt)) removed
      ++ ups /\
    NoDup removed /\
    (forall x, x ∈ removed <->
               x ∈ names /\ x ∉ Dimension.hierarchy_names Examples.region) /\
    Forall (fun ev => is_hier_delete ev = false) ups.
Proof.
  apply (update_upserts_only_after_deletions Examples.region Examples.server_with_region
           (HierExists "Region" "Region" (Returned true))).
  - vm_compute. repeat constructor.
  - reflexivity.
Defined.

Lemma update_failed_deletion_is_last_witness :
  snd (run (DimensionService.update Examples.region) MoreExamples.server_case_variants)
    = Raised (TM1pyException "404") /\
  last (trace (fst (run (DimensionService.update Examples.region)
                        MoreExamples.server_case_variants)))
    = Some (HierDelete "Region" "Old" (Raised (TM1pyException "404"))).
Proof.
  apply (update_failed_deletion_is_last Examples.region MoreExamples.server_case_variants
           "Region" "Old" (TM1pyException "404")).
  vm_compute. repeat constructor.
Defined.

Lemma update_nothing_to_delete_witness :
  deleted_hierarchies
    (trace (fst (run (DimensionService.update Examples.region_with_leaves)
                     Examples.server_with_region))) = [].
Proof.
  apply (update_nothing_to_delete Examples.region_with_leaves
           Examples.server_with_region Examples.server_with_region
           ["Region"; "Leaves"]).
  - reflexivity.
  - intros x Hx. exact Hx.
Defined.

Lemma update_deletes_an_omitted_leaves_witness :
  ("Region", "Leaves")
    ∈ deleted_hierarchies
        (trace (fst (run (DimensionService.update Examples.region)
                         Examples.server_with_region))).
Proof.
  apply (update_deletes_an_omitted_leaves Examples.region
           Examples.server_with_region Examples.server_with_region
           ["Region"; "Leaves"]).
  - reflexivity.
  - repeat constructor.
  - intros Hin. apply list_elem_of_In in Hin. simpl in Hin.
    destruct Hin as [Hin | [Hin | []]]; discriminate Hin.
  - reflexivity.
Defined.

(** ** The queries, in full *)

Lemma escape_char_plain (c : ascii) :
  plain_char c = true -> escape_char c = String c EmptyString.
Proof.
  unfold plain_char, escape_char. intros Hplain.
  apply andb_prop in Hplain as [Hplain H92]. apply andb_prop in Hplain as [H32 H34].
  apply negb_true_iff in H92. apply negb_true_iff in H34. apply Nat.leb_le in H32.
  rewrite H34, H92.
  repeat match goal with
         | |- context [Nat.eqb ?n ?k] =>
             destruct (Nat.eqb_spec n k) as [Heq | _]; [rewrite Heq in H32; lia |]
         end.
  destruct (Nat.ltb_spec (nat_of_ascii c) 32); [lia | reflexivity].
Qed.

Lemma escape_chars_plain (s : string) : plain s = true -> escape_chars s = s.
Proof.
  induction s as [| c s IH]; simpl; [reflexivity |].
  intros Hplain. apply andb_prop in Hplain as [Hc Hs].
  rewrite (escape_char_plain c Hc), (IH Hs). reflexivity.
Qed.

Lemma plain_app (a b : string) : plain (a +:+ b) = plain a && plain b.
Proof.
  induction a as [| c a IH]; simpl; [reflexivity |].
  rewrite IH. apply andb_assoc.
Qed.

Lemma string_app_assoc (a b c : string) : (a +:+ b) +:+ c = a +:+ (b +:+ c).
Proof.
  induction a as [| x a IH]; [reflexivity |].
  change (String x ((a +:+ b) +:+ c) = String x (a +:+ (b +:+ c))).
  f_equal. exact IH.
Qed.

Lemma string_app_cons (c : ascii) (s t : string) : String c s +:+ t = String c (s +:+ t).
Proof. reflexivity. Qed.

Lemma string_app_nil (t : string) : EmptyString +:+ t = t.
Proof. reflexivity. Qed.

Lemma encode_basestring_plain (s : string) :
  plain s = true -> encode_basestring s = String dquote (s +:+ String dquote EmptyString).
Proof. intros Hs. unfold encode_basestring. rewrite (escape_chars_plain s Hs). reflexivity. Qed.

(** The JSON text of the payload of [execute_mdx] for a plain statement. *)
Lemma json_dumps_plain_statement (statement : string) :
  plain statement = true ->
  json_dumps (JObj [("MDX", JStr statement)]) =
    ("{" +:+ String dquote ("MDX" +:+ String dquote (": " +:+ String dquote EmptyString)))
    +:+ statement +:+ String dquote "}".
Proof.
  intros Hplain.
  change (json_dumps (JObj [("MDX", JStr statement)]))
    with ("{" +:+ (encode_basestring "MDX" +:+ ": " +:+ encode_basestring statement
                   +:+ EmptyString) +:+ "}").
  rewrite (encode_basestring_plain statement Hplain).
  rewrite (encode_basestring_plain "MDX" eq_refl).
  repeat (rewrite string_app_cons || rewrite string_app_nil || rewrite string_app_assoc).
  reflexivity.
Qed.

Section QueriesMore.
Context {W : Type} `{!Collaborators W}.

(** X11. When the JSON object answered to [get_all_names] has no entry
    under the key value, the call raises [KeyError] for that key. *)
Theorem get_all_names_needs_the_value_key (w w' : W) (response : Response)
    (members : list (string * json)) :
  rest_GET "/api/v1/Dimensions?$select=Name" "" w = (w', Returned response) ->
  json_body response = Some (JObj members) ->
  lookup_member "value" members = None ->
  snd (run DimensionService.get_all_names w) = Raised (KeyError (JStr "value")).
Proof.
  intros Hget Hbody Hmissing.
  unfold run, DimensionService.get_all_names.
  erewrite bind_returned by (apply call_run; exact Hget).
  unfold lift, response_json. rewrite Hbody. simpl. rewrite Hmissing. reflexivity.
Qed.

(** X12. One entry of the value array without a Name makes
    [get_all_names] raise [KeyError] for Name; the names of the entries
    before it are not returned. *)
Theorem get_all_names_entry_without_name (w w' : W) (response : Response)
    (answer : json) (before after names : list json) (members : list (string * json)) :
  rest_GET "/api/v1/Dimensions?$select=Name" "" w = (w', Returned response) ->
  json_body response = Some answer ->
  getitem "value" answer = Returned (JArr (before ++ JObj members :: after)) ->
  Forall2 (fun entry n => getitem "Name" entry = Returned n) before names ->
  lookup_member "Name" members = None ->
  snd (run DimensionService.get_all_names w) = Raised (KeyError (JStr "Name")).
Proof.
  intros Hget Hbody Hvalue Hbefore Hmissing.
  unfold run, DimensionService.get_all_names.
  erewrite bind_returned by (apply call_run; exact Hget).
  unfold lift, response_json. rewrite Hbody. simpl. rewrite Hvalue. simpl.
  erewrite comprehension_first_failure; [reflexivity | exact Hbefore |].
  simpl. rewrite Hmissing. reflexivity.
Qed.

(** X13. An answer whose list of axes is empty makes [execute_mdx] raise
    [IndexError]. *)
Theorem execute_mdx_without_axis (dimension_name mdx : string) (w w' : W)
    (response : Response) (answer : json) :
  rest_POST DimensionService.execute_mdx_request
    (json_dumps (JObj [("MDX", JStr (DimensionService.mdx_skeleton_format
                                       mdx dimension_name dimension_name))])) w
    = (w', Returned response) ->
  json_body response = Some answer ->
  getitem "Axes" answer = Returned (JArr []) ->
  snd (run (DimensionService.execute_mdx dimension_name mdx) w) = Raised IndexError.
Proof.
  intros Hpost Hbody Haxes.
  unfold run, DimensionService.execute_mdx.
  erewrite bind_returned by (apply call_run; exact Hpost).
  unfold lift, response_json, DimensionService.axis_element_names.
  rewrite Hbody. simpl obind. rewrite Haxes. reflexivity.
Qed.

Lemma execute_mdx_one_post (dimension_name mdx : string) (w : W) :
  exists out,
    trace (fst (run (DimensionService.execute_mdx dimension_name mdx) w))
      = [RestPOST DimensionService.execute_mdx_request
           (json_dumps (JObj [("MDX", JStr (DimensionService.mdx_skeleton_format
                                              mdx dimension_name dimension_name))]))
           out] /\
    forall e, out = Raised e ->
              snd (run (DimensionService.execute_mdx dimension_name mdx) w) = Raised e.
Proof.
  unfold run, DimensionService.execute_mdx, bind, call. simpl.
  destruct (rest_POST _ _ w) as [w' [e | response]]; simpl.
  - eexists. split; [reflexivity |]. intros ? [= <-]. reflexivity.
  - eexists. split; [reflexivity |]. discriminate.
Qed.

(** X14. Each query makes exactly one call, whatever the server answers:
    [get_all_names] one GET, [execute_mdx] one POST to the ExecuteMDX
    request; and an exception raised by that call is raised by the query. *)
Theorem queries_make_one_call (w : W) :
  (exists out,
      trace (fst (run DimensionService.get_all_names w))
        = [RestGET "/api/v1/Dimensions?$select=Name" "" out] /\
      forall e, out = Raised e ->
                snd (run DimensionService.get_all_names w) = Raised e) /\
  (forall dimension_name mdx,
      exists data out,
        trace (fst (run (DimensionService.execute_mdx dimension_name mdx) w))
          = [RestPOST DimensionService.execute_mdx_request data out] /\
        forall e, out = Raised e ->
                  snd (run (DimensionService.execute_mdx dimension_name mdx) w)
                    = Raised e).
Proof.
  split.
  - unfold run, DimensionService.get_all_names, bind, call. simpl.
    destruct (rest_GET _ _ w) as [w' [e | response]]; simpl.
    + eexists. split; [reflexivity |]. intros ? [= <-]. reflexivity.
    + eexists. split; [reflexivity |]. discriminate.
  - intros dimension_name mdx.
    destruct (execute_mdx_one_post dimension_name mdx w) as (out & Htrace & Hraise).
    eexists _, out. split; [exact Htrace | exact Hraise].
Qed.

(** X15. When the row expression and the dimension name hold no double
    quote, no backslash and no control character, the body posted by
    [execute_mdx] is the text of the statement between an opening brace,
    the quoted key MDX, a colon and a space, a quote, and a closing quote
    and brace: nothing in the statement is altered. *)
Theorem execute_mdx_posts_the_statement_verbatim (dimension_name mdx : string) (w : W) :
  plain mdx = true -> plain dimension_name = true ->
  exists out,
    trace (fst (run (DimensionService.execute_mdx dimension_name mdx) w)) =
      [RestPOST DimensionService.execute_mdx_request
         (("{" +:+ String dquote ("MDX" +:+ String dquote (": " +:+ String dquote EmptyString)))
          +:+ DimensionService.mdx_skeleton_format mdx dimension_name dimension_name
          +:+ String dquote "}")
         out].
Proof.
  intros Hmdx Hdim.
  assert (plain (DimensionService.mdx_skeleton_format mdx dimension_name dimension_name)
          = true) as Hplain.
  { unfold DimensionService.mdx_skeleton_format.
    rewrite !plain_app, Hmdx, Hdim. reflexivity. }
  destruct (execute_mdx_one_post dimension_name mdx w) as (out & Htrace & _).
  exists out. rewrite Htrace, (json_dumps_plain_statement _ Hplain). reflexivity.
Qed.
End QueriesMore.

(** *** The queries, in full, on example answers *)

Lemma get_all_names_needs_the_value_key_witness :
  snd (run DimensionService.get_all_names
           (Canned.answering (JObj [("error", JStr "not found")])))
    = Raised (KeyError (JStr "value")).
Proof.
  apply (get_all_names_needs_the_value_key
           (Canned.answering (JObj [("error", JStr "not found")]))
           (Canned.answering (JObj [("error", JStr "not found")]))
           {| json_body := Some (JObj [("error", JStr "not found")]) |}
           [("error", JStr "not found")]).
  - reflexivity.
  - reflexivity.
  - reflexivity.
Defined.

Lemma get_all_names_entry_without_name_witness :
  snd (run DimensionService.get_all_names
           (Canned.answering
              (JObj [("value", JArr [JObj [("Name", JStr "Region")];
                                     JObj [("Id", JNum 7)];
                                     JObj [("Name", JStr "Product")]])])))
    = Raised (KeyError (JStr "Name")).
Proof.
  apply (get_all_names_entry_without_name
           (Canned.answering
              (JObj [("value", JArr [JObj [("Name", JStr "Region")];
                                     JObj [("Id", JNum 7)];
                                     JObj [("Name", JStr "Product")]])]))
           (Canned.answering
              (JObj [("value", JArr [JObj [("Name", JStr "Region")];
                                     JObj [("Id", JNum 7)];
                                     JObj [("Name", JStr "Product")]])]))
           {| json_body :=
                Some (JObj [("value", JArr [JObj [("Name", JStr "Region")];
                                            JObj [("Id", JNum 7)];
                                            JObj [("Name", JStr "Product")]])]) |}
           (JObj [("value", JArr [JObj [("Name", JStr "Region")];
                                  JObj [("Id", JNum 7)];
                                  JObj [("Name", JStr "Product")]])])
           [JObj [("Name", JStr "Region")]]
           [JObj [("Name", JStr "Product")]]
           [JStr "Region"]
           [("Id", JNum 7)]).
  - reflexivity.
  - reflexivity.
  - reflexivity.
  - repeat constructor.
  - reflexivity.
Defined.

Lemma execute_mdx_without_axis_witness :
  snd (run (DimensionService.execute_mdx "Region" Examples.region_members)
           (Canned.answering (JObj [("Axes", JArr [])])))
    = Raised IndexError.
Proof.
  apply (execute_mdx_without_axis "Region" Examples.region_members
           (Canned.answering (JObj [("Axes", JArr [])]))
           (Canned.answering (JObj [("Axes", JArr [])]))
           {| json_body := Some (JObj [("Axes", JArr [])]) |}
           (JObj [("Axes", JArr [])])).
  - reflexivity.
  - reflexivity.
  - reflexivity.
Defined.

Lemma execute_mdx_posts_the_statement_verbatim_witness :
  exists out,
    trace (fst (run (DimensionService.execute_mdx "Region" Examples.region_members)
                    (Examples.server_answering Examples.two_rows))) =
      [RestPOST DimensionService.execute_mdx_request
         (("{" +:+ String dquote ("MDX" +:+ String dquote (": " +:+ String dquote EmptyString)))
          +:+ DimensionService.mdx_skeleton_format Examples.region_members "Region" "Region"
          +:+ String dquote "}")
         out].
Proof.
  apply (execute_mdx_posts_the_statement_verbatim "Region" Examples.region_members
           (Examples.server_answering Examples.two_rows)).
  - reflexivity.
  - reflexivity.
Defined.

(** ** create_element_attributes_through_ti, in full *)

Lemma for_each_app {W A} (l1 l2 : list A) (f : A -> M W unit) (s : state W) :
  for_each (l1 ++ l2) f s =
    match for_each l1 f s with
    | (s1, Returned _) => for_each l2 f s1
    | (s1, Raised e) => (s1, Raised e)
    end.
Proof.
  revert s. induction l1 as [| x l1 IH]; intros s; simpl; [reflexivity |].
  unfold bind. destruct (f x s) as [s1 [e | []]]; [reflexivity | apply IH].
Qed.

Lemma ti_batches_app (t1 t2 : list event) :
  ti_batches (t1 ++ t2) = ti_batches t1 ++ ti_batches t2.
Proof. apply omap_app. Qed.

Lemma ti_batches_returned (batches : list Hierarchy.t) (g : Hierarchy.t -> list string) :
  ti_batches (map (fun h => ExecuteTiCode (g h) (Returned tt)) batches) = map g batches.
Proof. induction batches as [| h hs IH]; simpl; [reflexivity |]. rewrite IH. reflexivity. Qed.

Section AttributesMore.
Context {W : Type} `{!Collaborators W}.



(** X17. An element attribute with an empty type makes the method raise
    [IndexError] when it reaches the hierarchy of that attribute: on a
    server whose script execution does not raise, the batches of the
    hierarchies before it have been submitted, and nothing is submitted for
    that hierarchy or for those after it. *)
Theorem ti_stops_at_an_empty_attribute_type (d : Dimension.t) (w : W)
    (before after : list Hierarchy.t) (h : Hierarchy.t) :
  ti_never_raises ->
  Dimension.hierarchies d = before ++ h :: after ->
  Forall typed before ->
  Exists (fun ea => ElementAttribute.attribute_type ea = EmptyString)
         (Hierarchy.element_attributes h) ->
  snd (run (DimensionService.create_element_attributes_through_ti d) w)
    = Raised IndexError /\
  ti_batches (trace (fst (run (DimensionService.create_element_attributes_through_ti d) w)))
    = map (fun h => map (attr_insert_text d) (Hierarchy.element_attributes h)) before.
Proof.
  intros Hti Hsplit Hbefore Huntyped.
  unfold run, DimensionService.create_element_attributes_through_ti.
  rewrite Hsplit, for_each_app.
  destruct (ti_loop d before (State w []) Hti Hbefore) as [w' Hrun].
  rewrite Hrun. simpl. unfold bind at 1. unfold bind at 1. unfold lift at 1.
  rewrite (attr_insert_untyped d _ Huntyped). simpl.
  split; [reflexivity |]. apply ti_batches_returned.
Qed.
End AttributesMore.


Lemma ti_stops_at_an_empty_attribute_type_witness :
  snd (run (DimensionService.create_element_attributes_through_ti
              MoreExamples.region_untyped) Examples.server_with_region)
    = Raised IndexError /\
  ti_batches
    (trace (fst (run (DimensionService.create_element_attributes_through_ti
                        MoreExamples.region_untyped) Examples.server_with_region)))
    = [["AttrInsert('Region', '', 'Population', 'N');";
        "AttrInsert('Region', '', 'Capital', 'S');"]].
Proof.
  apply (ti_stops_at_an_empty_attribute_type MoreExamples.region_untyped
           Examples.server_with_region [Examples.h_region] [Examples.h_continent]
           MoreExamples.h_untyped).
  - exact mock_ti_never_raises.
  - reflexivity.
  - repeat constructor; discriminate.
  - repeat constructor.
Defined.

(** ** exists and delete *)

Lemma string_length_app (a b : string) :
  String.length (a +:+ b) = String.length a + String.length b.
Proof.
  induction a as [| c a IH]; [reflexivity |].
  change (S (String.length (a +:+ b)) = S (String.length a + String.length b)).
  f_equal. exact IH.
Qed.

Lemma string_app_inv_tail (a b s : string) : a +:+ s = b +:+ s -> a = b.
Proof.
  revert b. induction a as [| c a IH]; intros [| c' b] Heq.
  - reflexivity.
  - apply (f_equal String.length) in Heq.
    rewrite string_app_nil, string_app_cons in Heq. simpl in Heq.
    rewrite string_length_app in Heq. lia.
  - apply (f_equal String.length) in Heq.
    rewrite string_app_nil, string_app_cons in Heq. simpl in Heq.
    rewrite string_length_app in Heq. lia.
  - rewrite !string_app_cons in Heq. injection Heq as -> Heq.
    f_equal. apply IH. exact Heq.
Qed.

Section ExistsDelete.
Context {W : Type} `{!Collaborators W}.

(** X18. [exists] and [delete] address a dimension by the same request,
    and two names share a request only if they are equal: the probe of one
    name and the DELETE of another carry the same request exactly when the
    names are the same string. *)
Theorem exists_and_delete_share_the_request (n1 n2 : string) (w w' : W) :
  (exists request answer gone,
      trace (fst (run (DimensionService.exists_ n1) w)) = [ObjectExists request answer] /\
      trace (fst (run (DimensionService.delete n2) w')) = [RestDELETE request gone])
  <-> n1 = n2.
Proof.
  unfold run, DimensionService.exists_, DimensionService.delete, call. simpl.
  destruct (object_exists _ w) as [w1 o1].
  destruct (rest_DELETE _ w') as [w2 o2]. simpl.
  split.
  - intros (request & answer & gone & [= <- _] & [= Hsame _]).
    rewrite !string_app_nil in Hsame.
    symmetry. exact (string_app_inv_tail _ _ _ Hsame).
  - intros ->. eexists _, _, _. split; reflexivity.
Qed.
End ExistsDelete.
